(** * Run/step/story store of antfarm: stale detection, run creation, resume

    A shallow embedding of
    - [src/src/installer/run.ts]        ([parseUtcTimestamp], [runWorkflow]),
    - [src/src/cli/cli.ts]              (the [cleanup-stale] and [resume] actions),
    - [src/src/installer/run-store.ts]  ([normalizeTitle], [findRunByTaskTitle]).

    The SQLite store is a record of three row lists ([runs], [steps],
    [stories]) in table (rowid) order; a query without [ORDER BY] returns rows
    in that order.  [UPDATE ... WHERE p] is a [map] of the row update over the
    rows satisfying [p].  Column values are kept as the code has them: statuses
    and timestamps are strings. *)

From Stdlib Require Import List String Ascii ZArith Bool Lia.
Import ListNotations.
Local Open Scope string_scope.

(** ** JavaScript numbers

    All numbers handled here are integral milliseconds, or [NaN] when
    [Date.parse] rejects its argument. *)

Inductive jsnum := Num (z : Z) | NaN.

Local Open Scope Z_scope.

(** [Math.max(a, b)]: [NaN] as soon as one argument is [NaN]. *)
Definition js_max2 (a b : jsnum) : jsnum :=
  match a, b with
  | Num x, Num y => Num (Z.max x y)
  | _, _ => NaN
  end.

(** [Math.max(a, b, c)] *)
Definition js_max3 (a b c : jsnum) : jsnum := js_max2 (js_max2 a b) c.

Definition js_sub (a b : jsnum) : jsnum :=
  match a, b with
  | Num x, Num y => Num (x - y)
  | _, _ => NaN
  end.

(** [a > b] and [a <= b]: false whenever [NaN] is involved. *)
Definition js_gt (a b : jsnum) : bool :=
  match a, b with
  | Num x, Num y => x >? y
  | _, _ => false
  end.

Definition js_le (a b : jsnum) : bool :=
  match a, b with
  | Num x, Num y => x <=? y
  | _, _ => false
  end.

Local Close Scope Z_scope.

(** ** String helpers *)

(** [value.includes("T")] *)
Fixpoint includes_T (s : string) : bool :=
  match s with
  | EmptyString => false
  | String c r => Ascii.eqb c "T"%char || includes_T r
  end.

(** [value.replace(" ", "T")]: only the first occurrence is replaced. *)
Fixpoint replace_first_space (s : string) : string :=
  match s with
  | EmptyString => EmptyString
  | String c r =>
      if Ascii.eqb c " "%char then String "T"%char r
      else String c (replace_first_space r)
  end.

(** The one-character string made of a double quote. *)
Definition dquote : string := String (ascii_of_nat 34) EmptyString.

(** Decimal rendering of a non-negative integer, as in a template literal. *)
Fixpoint digits_of (fuel : nat) (n : Z) (acc : string) : string :=
  match fuel with
  | O => acc
  | S f =>
      let acc' := String (ascii_of_nat (48 + Z.to_nat (n mod 10))) acc in
      if (n <? 10)%Z then acc' else digits_of f (n / 10)%Z acc'
  end.

Definition z_to_string (z : Z) : string :=
  if (z <? 0)%Z then "-" ++ digits_of (S (Z.to_nat (Z.log2 (- z)))) (- z)%Z EmptyString
  else digits_of (S (Z.to_nat (Z.log2 z))) z EmptyString.

(** ** Rows of the store *)

(** The parsed [loop_config] column ([JSON.stringify(step.loop)]); only the
    two fields that [resume] reads are kept. *)
Record loop_config := mkLoopConfig {
  verifyEach : bool;
  verifyStep : option string
}.

Record run := mkRun {
  run_id : string;
  run_workflow_id : string;
  run_task : string;
  run_status : string;
  run_context : list (string * string);
  run_notify_url : option string;
  run_created_at : string;
  run_updated_at : string
}.

Record step := mkStep {
  step_uuid : string;            (* column [id] *)
  step_run_id : string;
  step_id : string;
  step_agent_id : string;
  step_index : nat;
  step_input_template : string;
  step_expects : string;
  step_status : string;
  step_max_retries : nat;
  step_type : string;
  step_loop_config : option loop_config;
  step_current_story_id : option string;
  step_output : option string;
  step_created_at : string;
  step_updated_at : string
}.

Record story := mkStory {
  story_uuid : string;           (* column [id] *)
  story_run_id : string;
  story_index : nat;
  story_status : string;
  story_updated_at : string
}.

Record db := mkDb {
  runs : list run;
  steps : list step;
  stories : list story
}.

(** Row updates: [SET status = ?, updated_at = ?] etc. *)
Definition set_run_status (st ts : string) (r : run) : run :=
  mkRun (run_id r) (run_workflow_id r) (run_task r) st (run_context r)
        (run_notify_url r) (run_created_at r) ts.

Definition upd_step (st : string) (cur out : option string) (ts : string)
    (s : step) : step :=
  mkStep (step_uuid s) (step_run_id s) (step_id s) (step_agent_id s)
         (step_index s) (step_input_template s) (step_expects s) st
         (step_max_retries s) (step_type s) (step_loop_config s) cur out
         (step_created_at s) ts.

Definition set_story_status (st ts : string) (s : story) : story :=
  mkStory (story_uuid s) (story_run_id s) (story_index s) st ts.

(** [status IN ('waiting','pending','running')] *)
Definition non_terminal (st : string) : bool :=
  (st =? "waiting") || (st =? "pending") || (st =? "running").

(** [SELECT MAX(col)]: SQLite compares TEXT with the binary collation;
    [NULL] when there is no row. *)
Fixpoint sql_max_text (l : list string) : option string :=
  match l with
  | [] => None
  | x :: t =>
      match sql_max_text t with
      | None => Some x
      | Some m => if String.leb x m then Some m else Some x
      end
  end.

(** [ORDER BY step_index ASC LIMIT 1] *)
Fixpoint min_step_by_index (l : list step) : option step :=
  match l with
  | [] => None
  | s :: t =>
      match min_step_by_index t with
      | None => Some s
      | Some m => if (step_index m <? step_index s)%nat then Some m else Some s
      end
  end.

(** [ORDER BY story_index ASC LIMIT 1] *)
Fixpoint min_story_by_index (l : list story) : option story :=
  match l with
  | [] => None
  | s :: t =>
      match min_story_by_index t with
      | None => Some s
      | Some m => if (story_index m <? story_index s)%nat then Some m else Some s
      end
  end.

(** [ORDER BY created_at ASC LIMIT 1] *)
Fixpoint min_run_by_created (l : list run) : option run :=
  match l with
  | [] => None
  | r :: t =>
      match min_run_by_created t with
      | None => Some r
      | Some m => if String.ltb (run_created_at m) (run_created_at r) then Some m else Some r
      end
  end.

(** [ORDER BY created_at ASC] (all rows): insertion sort. *)
Fixpoint insert_by_created (r : run) (l : list run) : list run :=
  match l with
  | [] => [r]
  | x :: t =>
      if String.leb (run_created_at r) (run_created_at x) then r :: l
      else x :: insert_by_created r t
  end.

Definition sort_by_created (l : list run) : list run :=
  fold_right insert_by_created [] l.

Definition steps_of (d : db) (rid : string) : list step :=
  filter (fun s => step_run_id s =? rid) (steps d).

Definition count_running (l : list step) : nat :=
  List.length (filter (fun s => step_status s =? "running") l).

(** ** Timestamps and the stale check *)

Section Stale.

(** [Date.parse], a host builtin. *)
Variable date_parse : string -> jsnum.

(** [parseUtcTimestamp] (run.ts, lines 11-15; copied in cli.ts, lines 56-60).
    [None] is SQL [NULL]; the empty string is falsy. *)
Definition parseUtcTimestamp (value : option string) : jsnum :=
  match value with
  | None | Some EmptyString => Num 0
  | Some v =>
      if includes_T v then date_parse v
      else date_parse (replace_first_space v ++ "Z")
  end.

(** The row of the active-run query of [runWorkflow] (run.ts, lines 38-81). *)
Record active_row := mkActiveRow {
  ar_id : string;
  ar_created_at : string;
  ar_run_updated_at : string;
  ar_step_id : option string;
  ar_agent_id : option string;
  ar_step_updated_at : option string;
  ar_running_steps : nat
}.

Definition active_row_of (d : db) (r : run) : active_row :=
  let ss := steps_of d (run_id r) in
  let act := min_step_by_index
               (filter (fun s => (step_status s =? "pending") || (step_status s =? "running")) ss) in
  mkActiveRow (run_id r) (run_created_at r) (run_updated_at r)
    (option_map step_id act) (option_map step_agent_id act)
    (sql_max_text (map step_updated_at ss)) (count_running ss).

(** [lastActivityMs] of [runWorkflow] (run.ts, lines 86-90). *)
Definition rw_last_activity (ar : active_row) : jsnum :=
  js_max3 (parseUtcTimestamp (Some (ar_created_at ar)))
          (parseUtcTimestamp (Some (ar_run_updated_at ar)))
          (parseUtcTimestamp (ar_step_updated_at ar)).

(** [isStale] (run.ts, line 91). *)
Definition rw_is_stale (nowMs thresholdMs : Z) (ar : active_row) : bool :=
  let last := rw_last_activity ar in
  Nat.eqb (ar_running_steps ar) 0 && js_gt last (Num 0)
  && js_gt (js_sub (Num nowMs) last) (Num thresholdMs).

(** The step half of both force-fail transactions:
    [UPDATE steps SET status = 'failed', output = COALESCE(output, ?),
     updated_at = ? WHERE run_id = ? AND status IN ('waiting','pending','running')]. *)
Definition fail_open_step (reason ts rid : string) (s : step) : step :=
  if (step_run_id s =? rid) && non_terminal (step_status s) then
    upd_step "failed" (step_current_story_id s)
      (Some (match step_output s with Some o => o | None => reason end)) ts s
  else s.

(** The force-fail transaction of [runWorkflow] (run.ts, lines 95-110). *)
Definition rw_force_fail (ts reason rid : string) (d : db) : db :=
  mkDb (map (fun r => if run_id r =? rid then set_run_status "failed" ts r else r) (runs d))
       (map (fail_open_step reason ts rid) (steps d))
       (stories d).

(** ** [cleanup-stale] (cli.ts, lines 529-657) *)

Record stale_entry := mkStaleEntry {
  se_id : string;
  se_workflow_id : string;
  se_task : string;
  se_stale_minutes : Z;
  se_step_id : option string;
  se_agent_id : option string
}.

(** [stepMeta], [activeStep] and the classification of one run
    (cli.ts, lines 573-608).  [SUM(...)] over no row is [NULL]. *)
Definition cleanup_classify (nowMs thresholdMs : Z) (d : db) (r : run)
    : option stale_entry :=
  let ss := steps_of d (run_id r) in
  let max_updated_at := sql_max_text (map step_updated_at ss) in
  let running_steps := match ss with [] => None | _ => Some (count_running ss) end in
  let act := min_step_by_index
               (filter (fun s => (step_status s =? "pending") || (step_status s =? "running")) ss) in
  let lastActivityMs :=
    js_max3 (parseUtcTimestamp (Some (run_created_at r)))
            (parseUtcTimestamp (Some (run_updated_at r)))
            (parseUtcTimestamp max_updated_at) in
  if js_le lastActivityMs (Num 0) then None
  else
    let runningSteps := match running_steps with Some n => n | None => O end in
    let ageMs := js_sub (Num nowMs) lastActivityMs in
    if Nat.eqb runningSteps 0 && js_gt ageMs (Num thresholdMs) then
      Some (mkStaleEntry (run_id r) (run_workflow_id r) (run_task r)
              (* [Math.floor(ageMs / 60_000)]; [ageMs] is a number here *)
              (match ageMs with Num a => (a / 60000)%Z | NaN => 0%Z end)
              (option_map step_id act) (option_map step_agent_id act))
    else None.

Fixpoint filter_some {A B : Type} (f : A -> option B) (l : list A) : list B :=
  match l with
  | [] => []
  | x :: t => match f x with Some y => y :: filter_some f t | None => filter_some f t end
  end.

(** [SELECT ... FROM runs WHERE status = 'running' AND (? IS NULL OR
    workflow_id = ?) ORDER BY created_at ASC] *)
Definition cleanup_candidates (workflowId : option string) (d : db) : list run :=
  sort_by_created
    (filter (fun r => (run_status r =? "running") &&
                      match workflowId with None => true | Some w => run_workflow_id r =? w end)
            (runs d)).

Definition cleanup_reason (minutes : Z) : string :=
  "Cleanup-stale: auto-failed after " ++ z_to_string minutes
  ++ " minutes without active step progress".

(** One iteration of the transaction (cli.ts, lines 628-635). *)
Definition cleanup_fail_one (ts : string) (d : db) (e : stale_entry) : db :=
  mkDb (map (fun r => if (run_id r =? se_id e) && (run_status r =? "running")
                      then set_run_status "failed" ts r else r) (runs d))
       (map (fail_open_step (cleanup_reason (se_stale_minutes e)) ts (se_id e)) (steps d))
       (stories d).

(** The [cleanup-stale] action: the stale runs are all found before the one
    transaction [BEGIN ... COMMIT] fails them; cron teardown and logging are
    external.  Returns the store afterwards and the list of stale runs. *)
Definition cleanup_stale (workflowId : option string) (thresholdMs nowMs : Z)
    (dryRun : bool) (ts : string) (d : db) : db * list stale_entry :=
  let staleRuns := filter_some (cleanup_classify nowMs thresholdMs d)
                               (cleanup_candidates workflowId d) in
  match staleRuns with
  | [] => (d, [])
  | _ => if dryRun then (d, staleRuns)
         else (fold_left (cleanup_fail_one ts) staleRuns d, staleRuns)
  end.

(** ** [runWorkflow] (run.ts, lines 25-189) *)

(** A step of the parsed [WorkflowSpec]. *)
Record wf_step := mkWfStep {
  ws_id : string;
  ws_agent : string;
  ws_input : string;
  ws_expects : string;
  ws_max_retries : option nat;
  ws_on_fail_max_retries : option nat;
  ws_type : option string;
  ws_loop : option loop_config
}.

Record workflow := mkWorkflow {
  wf_id : string;
  wf_steps : list wf_step;
  wf_context : list (string * string);
  wf_notify_url : option string
}.

(** What the host supplies: clocks, fresh UUIDs, the stale threshold
    ([getStaleActiveRunThresholdMs]) and whether [ensureWorkflowCrons]
    succeeds. *)
Record rw_host := mkRwHost {
  h_now_iso : string;           (* [now], line 34 *)
  h_run_uuid : string;          (* [runId], line 35 *)
  h_step_uuid : nat -> string;  (* [crypto.randomUUID()] of step [i] *)
  h_now_ms : Z;                 (* [Date.now()], line 84 *)
  h_threshold_ms : Z;
  h_later_iso : string;         (* the later [new Date().toISOString()] *)
  h_crons_ok : bool
}.

Inductive rw_result :=
  | RwOk (id workflowId task status : string)
  | RwErr (msg : string).

(** Object property assignment and [{ ...base, ...extra }]. *)
Fixpoint obj_set (k v : string) (o : list (string * string)) : list (string * string) :=
  match o with
  | [] => [(k, v)]
  | (k', v') :: t => if k' =? k then (k, v) :: t else (k', v') :: obj_set k v t
  end.

Definition obj_spread (base extra : list (string * string)) : list (string * string) :=
  fold_left (fun o kv => obj_set (fst kv) (snd kv) o) extra base.

(** The step rows inserted by the loop of lines 152-161. *)
Fixpoint mk_steps (h : rw_host) (wf : workflow) (runId now : string)
    (ws : list wf_step) (i : nat) : list step :=
  match ws with
  | [] => []
  | w :: t =>
      mkStep (h_step_uuid h i) runId (ws_id w) (wf_id wf ++ "/" ++ ws_agent w) i
        (ws_input w) (ws_expects w)
        (if Nat.eqb i 0 then "pending" else "waiting")
        (match ws_max_retries w with
         | Some n => n
         | None => match ws_on_fail_max_retries w with Some n => n | None => 2%nat end
         end)
        (match ws_type w with Some ty => ty | None => "single" end)
        (ws_loop w) None None now now
      :: mk_steps h wf runId now t (S i)
  end.

(** The insert transaction (lines 140-167). *)
Definition insert_run_and_steps (h : rw_host) (wf : workflow) (taskTitle : string)
    (notifyUrl : option string) (d : db) : db :=
  let initialContext := obj_spread [("task", taskTitle)] (wf_context wf) in
  let notify := match notifyUrl with Some u => Some u | None => wf_notify_url wf end in
  mkDb (runs d ++ [mkRun (h_run_uuid h) (wf_id wf) taskTitle "running" initialContext
                         notify (h_now_iso h) (h_now_iso h)])%list
       (steps d ++ mk_steps h wf (h_run_uuid h) (h_now_iso h) (wf_steps wf) 0)%list
       (stories d).

(** [SELECT ... FROM runs r WHERE r.workflow_id = ? AND r.status = 'running'
    ORDER BY r.created_at ASC LIMIT 1] *)
Definition active_run (wf : workflow) (d : db) : option run :=
  min_run_by_created
    (filter (fun r => (run_workflow_id r =? wf_id wf) && (run_status r =? "running")) (runs d)).

(** The concurrency guard (lines 37-133): the store to go on with, or the
    error thrown. *)
Definition concurrency_guard (h : rw_host) (wf : workflow) (allowConcurrent : bool)
    (d : db) : db + string :=
  if allowConcurrent then inl d
  else
    match active_run wf d with
    | None => inl d
    | Some r =>
        let ar := active_row_of d r in
        if rw_is_stale (h_now_ms h) (h_threshold_ms h) ar then
          let staleMinutes :=
            match js_sub (Num (h_now_ms h)) (rw_last_activity ar) with
            | Num a => (a / 60000)%Z | NaN => 0%Z end in
          inl (rw_force_fail (h_later_iso h)
                 ("Auto-failed stale run after " ++ z_to_string staleMinutes
                  ++ " minutes without progress") (ar_id ar) d)
        else
          let activeStep :=
            match ar_step_id ar with
            | Some sid => sid ++ " (" ++ match ar_agent_id ar with
                                        | Some a => a | None => "unknown-agent" end ++ ")"
            | None => "unknown"
            end in
          inr ("Workflow " ++ dquote ++ wf_id wf ++ dquote ++ " already has an active run ("
               ++ substring 0 8 (ar_id ar) ++ "), currently at step " ++ activeStep
               ++ ". Wait for completion or use --allow-concurrent to queue another run.")
    end.

Definition runWorkflow (h : rw_host) (wf : workflow) (taskTitle : string)
    (notifyUrl : option string) (allowConcurrent : bool) (d : db) : rw_result * db :=
  match concurrency_guard h wf allowConcurrent d with
  | inr msg => (RwErr msg, d)
  | inl d1 =>
      let d2 := insert_run_and_steps h wf taskTitle notifyUrl d1 in
      if h_crons_ok h then (RwOk (h_run_uuid h) (wf_id wf) taskTitle "running", d2)
      else
        (* the message ends with the one of the cron error, left out here *)
        (RwErr "Cannot start workflow run: cron setup failed.",
         mkDb (map (fun r => if run_id r =? h_run_uuid h
                             then set_run_status "failed" (h_later_iso h) r else r) (runs d2))
              (steps d2) (stories d2))
  end.

End Stale.

(** ** [resume] (cli.ts, lines 727-816) *)

(** SQLite's [LIKE] for ASCII text, without [ESCAPE]: [%] matches any
    sequence, [_] any one character, and letters match case-insensitively. *)
Definition ascii_upper_to_lower (c : ascii) : ascii :=
  let n := nat_of_ascii c in
  if Nat.leb 65 n && Nat.leb n 90 then ascii_of_nat (n + 32) else c.

Fixpoint like (p s : string) : bool :=
  match p with
  | EmptyString => match s with EmptyString => true | _ => false end
  | String c p' =>
      if Ascii.eqb c "%"%char then
        (fix go (s : string) : bool :=
           like p' s || match s with EmptyString => false | String _ s' => go s' end) s
      else
        match s with
        | EmptyString => false
        | String d s' =>
            (Ascii.eqb c "_"%char
             || Ascii.eqb (ascii_upper_to_lower c) (ascii_upper_to_lower d))
            && like p' s'
        end
  end.

Inductive resume_result :=
  | ResumeErr (msg : string)   (* written to stderr, then [process.exit(1)] *)
  | Resumed (msg : string).

(** [SELECT id, workflow_id, status FROM runs WHERE id = ? OR id LIKE ?]
    with [target] and [target%]; [.get] returns the first row. *)
Definition find_target_run (target : string) (d : db) : option run :=
  find (fun r => (run_id r =? target) || like (target ++ "%") (run_id r)) (runs d).

(** The failed step: [WHERE run_id = ? AND status = 'failed'
    ORDER BY step_index ASC LIMIT 1]. *)
Definition first_failed_step (rid : string) (d : db) : option step :=
  min_step_by_index
    (filter (fun s => (step_run_id s =? rid) && (step_status s =? "failed")) (steps d)).

Definition first_failed_story (rid : string) (d : db) : option story :=
  min_story_by_index
    (filter (fun s => (story_run_id s =? rid) && (story_status s =? "failed")) (stories d)).

(** [WHERE run_id = ? AND type = 'loop' AND status IN ('running', 'failed')
    LIMIT 1] *)
Definition resume_loop_step (rid : string) (d : db) : option step :=
  find (fun s => (step_run_id s =? rid) && (step_type s =? "loop")
                 && ((step_status s =? "running") || (step_status s =? "failed")))
       (steps d).

(** [UPDATE steps SET status = ?, current_story_id = NULL,
    updated_at = datetime('now') WHERE id = ?] *)
Definition reset_step (st uuid now : string) (d : db) : db :=
  mkDb (runs d)
       (map (fun s => if step_uuid s =? uuid
                      then upd_step st None (step_output s) now s else s) (steps d))
       (stories d).

Definition set_run_running (rid now : string) (d : db) : db :=
  mkDb (map (fun r => if run_id r =? rid then set_run_status "running" now r else r) (runs d))
       (steps d) (stories d).

(** [loopStep?.loop_config] parsed, [lc.verifyEach && lc.verifyStep === failedStep.step_id] *)
Definition verify_pairing (ls : option step) (fs : step) : bool :=
  match ls with
  | Some l =>
      match step_loop_config l with
      | Some lc => verifyEach lc
                   && match verifyStep lc with Some v => v =? step_id fs | None => false end
      | None => false
      end
  | None => false
  end.

(** "If it's a loop step with a failed story, reset that story to pending"
    (cli.ts, lines 752-762). *)
Definition reset_failed_loop_story (fs : step) (rid now : string) (d : db) : db :=
  if step_type fs =? "loop" then
    match first_failed_story rid d with
    | Some st =>
        mkDb (runs d) (steps d)
             (map (fun s => if story_uuid s =? story_uuid st
                            then set_story_status "pending" now s else s)
                  (stories d))
    | None => d
    end
  else d.

(** The verify-pairing branch (lines 770-803): loop step to [pending],
    verify step to [waiting], failed stories of the run to [pending], run to
    [running]. *)
Definition resume_verify_branch (l fs : step) (rid now : string) (d : db) : db :=
  let d2 := reset_step "waiting" (step_uuid fs) now (reset_step "pending" (step_uuid l) now d) in
  let d3 := mkDb (runs d2) (steps d2)
              (map (fun s => if (story_run_id s =? rid) && (story_status s =? "failed")
                             then set_story_status "pending" now s else s)
                   (stories d2)) in
  set_run_running rid now d3.

(** The plain branch (lines 807-815). *)
Definition resume_plain_branch (fs : step) (rid now : string) (d : db) : db :=
  set_run_running rid now (reset_step "pending" (step_uuid fs) now d).

(** The [resume] action.  [now] is SQLite's [datetime('now')].  Re-arming the
    crons only writes a warning when it fails and changes no row, so it is
    left out. *)
Definition resume (target now : string) (d : db) : resume_result * db :=
  match target with
  | EmptyString => (ResumeErr "Missing run-id.", d)
  | _ =>
  match find_target_run target d with
  | None => (ResumeErr ("Run not found: " ++ target), d)
  | Some r =>
      if negb (run_status r =? "failed") then
        (ResumeErr ("Run " ++ substring 0 8 (run_id r) ++ " is " ++ dquote ++ run_status r
                    ++ dquote ++ ", not " ++ dquote ++ "failed" ++ dquote
                    ++ ". Nothing to resume."), d)
      else
        match first_failed_step (run_id r) d with
        | None => (ResumeErr ("No failed step found in run " ++ substring 0 8 (run_id r) ++ "."), d)
        | Some fs =>
            let d1 := reset_failed_loop_story fs (run_id r) now d in
            let ls := resume_loop_step (run_id r) d1 in
            match ls with
            | Some l =>
                if verify_pairing ls fs then
                  (Resumed ("Resumed run " ++ substring 0 8 (run_id r) ++ " - reset loop step"),
                   resume_verify_branch l fs (run_id r) now d1)
                else
                  (Resumed ("Resumed run " ++ substring 0 8 (run_id r) ++ " from step "
                            ++ dquote ++ step_id fs ++ dquote),
                   resume_plain_branch fs (run_id r) now d1)
            | None =>
                (Resumed ("Resumed run " ++ substring 0 8 (run_id r) ++ " from step "
                          ++ dquote ++ step_id fs ++ dquote),
                 resume_plain_branch fs (run_id r) now d1)
            end
        end
  end
  end.

(** ** [run-store.ts] *)

(** Strings are lists of UTF-16 code units; the model covers code units
    below 256 (one [ascii] each), on which [trim] removes
    TAB, LF, VT, FF, CR, SPACE and NBSP, and [toLowerCase] maps
    A-Z and the Latin-1 capitals U+00C0-U+00DE (but U+00D7) down by 32. *)
Definition js_is_whitespace (c : ascii) : bool :=
  let n := nat_of_ascii c in
  (Nat.leb 9 n && Nat.leb n 13) || Nat.eqb n 32 || Nat.eqb n 160.

Definition js_char_lower (c : ascii) : ascii :=
  let n := nat_of_ascii c in
  if (Nat.leb 65 n && Nat.leb n 90) || (Nat.leb 192 n && Nat.leb n 222 && negb (Nat.eqb n 215))
  then ascii_of_nat (n + 32) else c.

Fixpoint js_trim_start (s : string) : string :=
  match s with
  | EmptyString => EmptyString
  | String c r => if js_is_whitespace c then js_trim_start r else s
  end.

Fixpoint js_trim_end (s : string) : string :=
  match s with
  | EmptyString => EmptyString
  | String c r =>
      match js_trim_end r with
      | EmptyString => if js_is_whitespace c then EmptyString else String c EmptyString
      | r' => String c r'
      end
  end.

Definition js_trim (s : string) : string := js_trim_end (js_trim_start s).

Fixpoint js_to_lower (s : string) : string :=
  match s with
  | EmptyString => EmptyString
  | String c r => String (js_char_lower c) (js_to_lower r)
  end.

(** The part of a [WorkflowRunRecord] read here. *)
Record workflow_run_record := mkWorkflowRunRecord {
  wr_id : string;
  wr_taskTitle : string
}.

Definition normalizeTitle (value : string) : string := js_to_lower (js_trim value).

(** [findRunByTaskTitle], the records being those [listWorkflowRuns] read,
    in directory order; [None] is [null]. *)
Definition findRunByTaskTitle (records : list workflow_run_record) (taskTitle : string)
    : option workflow_run_record :=
  let normalized := normalizeTitle taskTitle in
  find (fun r => normalizeTitle (wr_taskTitle r) =? normalized) records.

Definition readWorkflowRun := findRunByTaskTitle.

(** ** [Date.parse] on the two timestamp shapes the program writes

    [toISOString()] gives [YYYY-MM-DDTHH:MM:SS.sssZ]; SQLite's
    [datetime('now')] gives [YYYY-MM-DD HH:MM:SS], which [parseUtcTimestamp]
    turns into [YYYY-MM-DDTHH:MM:SSZ].  Other strings are taken as
    unparseable here.  Used to evaluate the code on concrete rows. *)
Definition digit_at (s : string) (n : nat) : option Z :=
  match get n s with
  | Some c =>
      let k := nat_of_ascii c in
      if Nat.leb 48 k && Nat.leb k 57 then Some (Z.of_nat (k - 48)) else None
  | None => None
  end.

Fixpoint num_at (s : string) (pos len : nat) (acc : Z) : option Z :=
  match len with
  | O => Some acc
  | S l => match digit_at s pos with
           | Some dg => num_at s (S pos) l (acc * 10 + dg)%Z
           | None => None
           end
  end.

Definition char_is (s : string) (n : nat) (c : ascii) : bool :=
  match get n s with Some c' => Ascii.eqb c c' | None => false end.

(** Days since 1970-01-01 of a proleptic Gregorian date. *)
Definition days_from_civil (y m d : Z) : Z :=
  let y' := if (m <=? 2)%Z then (y - 1)%Z else y in
  let era := (y' / 400)%Z in
  let yoe := (y' - era * 400)%Z in
  let doy := ((153 * (if (m >? 2)%Z then m - 3 else m + 9) + 2) / 5 + d - 1)%Z in
  let doe := (yoe * 365 + yoe / 4 - yoe / 100 + doy)%Z in
  (era * 146097 + doe - 719468)%Z.

Definition iso_date_parse (s : string) : jsnum :=
  let len := String.length s in
  let frac := Nat.eqb len 24 && char_is s 19 "."%char in
  if char_is s 4 "-"%char && char_is s 7 "-"%char && char_is s 10 "T"%char
     && char_is s 13 ":"%char && char_is s 16 ":"%char
     && char_is s (len - 1) "Z"%char && (Nat.eqb len 20 || frac)
  then
    match num_at s 0 4 0, num_at s 5 2 0, num_at s 8 2 0, num_at s 11 2 0,
          num_at s 14 2 0, num_at s 17 2 0,
          (if frac then num_at s 20 3 0 else Some 0%Z) with
    | Some y, Some mo, Some dd, Some hh, Some mi, Some ss, Some ms =>
        if (1 <=? mo)%Z && (mo <=? 12)%Z && (1 <=? dd)%Z && (dd <=? 31)%Z
           && (hh <=? 23)%Z && (mi <=? 59)%Z && (ss <=? 59)%Z
        then Num (days_from_civil y mo dd * 86400000 + hh * 3600000
                  + mi * 60000 + ss * 1000 + ms)%Z
        else NaN
    | _, _, _, _, _, _, _ => NaN
    end
  else NaN.

(** ** The stale check as the spec words it (section 4.3)

    [lastActivity = max(run.createdAt, run.updatedAt, max(step.updatedAt over
    all its steps))], each timestamp read with [parseUtcTimestamp]. *)
Definition spec_last_activity (dp : string -> jsnum) (d : db) (r : run) : jsnum :=
  fold_left js_max2
    (map (fun s => parseUtcTimestamp dp (Some (step_updated_at s))) (steps_of d (run_id r)))
    (js_max2 (parseUtcTimestamp dp (Some (run_created_at r)))
             (parseUtcTimestamp dp (Some (run_updated_at r)))).

(** Stale: zero [running] steps and [now - lastActivity > threshold]. *)
Definition spec_is_stale (dp : string -> jsnum) (nowMs thresholdMs : Z) (d : db) (r : run)
    : bool :=
  Nat.eqb (count_running (steps_of d (run_id r))) 0
  && js_gt (js_sub (Num nowMs) (spec_last_activity dp d r)) (Num thresholdMs).

(** ** Run-scoped crons (agent-cron.ts, gateway-api.ts)

    The gateway's jobs are a list in the order [listCronJobs] returns them.
    A job keeps its id, its name and the parts of the [createAgentCronJob]
    request built by [setupAgentCrons]; the prompt text and the
    [wakeMode] normalization of [forceWorkflowWakeModeNow] (modelled on its
    own below) are left out of it. *)
Record cron_job := mkCronJob {
  cj_id : string;
  cj_name : string;
  cj_agent : string;
  cj_every_ms : Z;
  cj_model : option string;
  cj_timeout : Z;
  cj_enabled : bool
}.

(** What the gateway answers, over HTTP or the CLI fallback alike: whether
    listing succeeds, the outcome of the preflight [checkCronToolAvailable]
    ([None] when it is ok, else its error), the outcome of
    [createAgentCronJob] (the new job's id, or its error) and which
    [deleteCronJob] calls succeed. *)
Record gateway := mkGateway {
  g_list_ok : bool;
  g_preflight : option string;
  g_create : string + string;
  g_delete_ok : string -> bool
}.

(** The part of a [WorkflowSpec] that [setupAgentCrons] reads. *)
Record cron_workflow := mkCronWorkflow {
  cw_id : string;
  cw_agents : list string;            (* [agents[i].id], in order *)
  cw_interval_ms : option Z;          (* [cron.interval_ms] *)
  cw_polling_model : option string;   (* [polling.model] *)
  cw_polling_timeout : option Z       (* [polling.timeoutSeconds] *)
}.

(** [`antfarm/${workflowId}/`] *)
Definition cron_prefix (workflowId : string) : string := "antfarm/" ++ workflowId ++ "/".

(** [listCronJobs]: the jobs, or a failure ([ok: false]). *)
Definition listCronJobs (g : gateway) (jobs : list cron_job) : option (list cron_job) :=
  if g_list_ok g then Some jobs else None.

(** [workflowCronsExist]; [startsWith] is [String.prefix]. *)
Definition workflowCronsExist (g : gateway) (jobs : list cron_job) (workflowId : string) : bool :=
  match listCronJobs g jobs with
  | None => false
  | Some js => existsb (fun j => prefix (cron_prefix workflowId) (cj_name j)) js
  end.

Definition DEFAULT_EVERY_MS : Z := 300000%Z.
Definition DEFAULT_POLLING_TIMEOUT_SECONDS : Z := 120%Z.
Definition DEFAULT_POLLING_MODEL : string := "default".

(** [setupAgentCrons]: the jobs afterwards, or the error thrown. *)
Definition setupAgentCrons (g : gateway) (wf : cron_workflow) (jobs : list cron_job)
    : list cron_job + string :=
  match cw_agents wf with
  | [] => inr ("Workflow " ++ dquote ++ cw_id wf ++ dquote ++ " has no agents to schedule.")
  | a0 :: _ =>
      let everyMs := match cw_interval_ms wf with Some n => n | None => DEFAULT_EVERY_MS end in
      let workflowPollingModel :=
        match cw_polling_model wf with Some m => m | None => DEFAULT_POLLING_MODEL end in
      let timeoutSeconds :=
        match cw_polling_timeout wf with
        | Some t => t | None => DEFAULT_POLLING_TIMEOUT_SECONDS end in
      let model :=
        if negb (workflowPollingModel =? EmptyString) && negb (workflowPollingModel =? "default")
        then Some workflowPollingModel else None in
      let cronName := "antfarm/" ++ cw_id wf ++ "/driver" in
      let agentId := cw_id wf ++ "_" ++ a0 in
      match g_create g with
      | inl id => inl (jobs ++ [mkCronJob id cronName agentId everyMs model timeoutSeconds true])%list
      | inr err => inr ("Failed to create workflow driver cron for " ++ dquote ++ cw_id wf
                        ++ dquote ++ ": " ++ err)
      end
  end.

(** [ensureWorkflowCrons] *)
Definition ensureWorkflowCrons (g : gateway) (wf : cron_workflow) (jobs : list cron_job)
    : list cron_job + string :=
  if workflowCronsExist g jobs (cw_id wf) then inl jobs
  else match g_preflight g with
       | Some err => inr err
       | None => setupAgentCrons g wf jobs
       end.

(** [deleteCronJob]: the gateway drops the job with that id when the call
    succeeds. *)
Definition deleteCronJob (g : gateway) (jobs : list cron_job) (jobId : string) : list cron_job :=
  if g_delete_ok g jobId then filter (fun j => negb (cj_id j =? jobId)) jobs else jobs.

(** [deleteAgentCronJobs]: one listing, then a delete per listed job whose
    name starts with the prefix. *)
Definition deleteAgentCronJobs (g : gateway) (namePrefix : string) (jobs : list cron_job)
    : list cron_job :=
  match listCronJobs g jobs with
  | None => jobs
  | Some js =>
      fold_left (fun st j => if prefix namePrefix (cj_name j) then deleteCronJob g st (cj_id j)
                             else st) js jobs
  end.

Definition removeAgentCrons (g : gateway) (workflowId : string) (jobs : list cron_job)
    : list cron_job :=
  deleteAgentCronJobs g (cron_prefix workflowId) jobs.

(** [countActiveRuns] *)
Definition countActiveRuns (d : db) (workflowId : string) : nat :=
  List.length (filter (fun r => (run_workflow_id r =? workflowId) && (run_status r =? "running"))
                      (runs d)).

(** [teardownWorkflowCronsIfIdle] *)
Definition teardownWorkflowCronsIfIdle (g : gateway) (d : db) (workflowId : string)
    (jobs : list cron_job) : list cron_job :=
  if Nat.ltb 0 (countActiveRuns d workflowId) then jobs else removeAgentCrons g workflowId jobs.

(** The teardown loop over a list of workflows. *)
Definition teardown_all (g : gateway) (d : db) (ws : list string) (jobs : list cron_job)
    : list cron_job :=
  fold_left (fun js w => teardownWorkflowCronsIfIdle g d w js) ws jobs.

(** [Set.prototype.add], the set kept in insertion order. *)
Definition set_add (x : string) (s : list string) : list string :=
  if existsb (String.eqb x) s then s else (s ++ [x])%list.

(** [cleanedWorkflows] of [cleanup-stale] (cli.ts, lines 625-636). *)
Definition cleaned_workflows (l : list stale_entry) : list string :=
  fold_left (fun acc e => set_add (se_workflow_id e) acc) l [].

(** The whole [cleanup-stale] action with its cron teardown (lines 655-661):
    after the transaction, crons of each workflow that lost a run are torn
    down if it has no running run left. *)
Definition cleanup_stale_with_crons (dp : string -> jsnum) (g : gateway)
    (workflowId : option string) (thresholdMs nowMs : Z) (dryRun : bool) (ts : string)
    (d : db) (jobs : list cron_job) : db * list stale_entry * list cron_job :=
  let (d', staleRuns) := cleanup_stale dp workflowId thresholdMs nowMs dryRun ts d in
  if dryRun then (d', staleRuns, jobs)
  else (d', staleRuns,
        fold_left (fun js w => teardownWorkflowCronsIfIdle g d' w js)
                  (cleaned_workflows staleRuns) jobs).

(** ** [forceWorkflowWakeModeNow] (agent-cron.ts)

    A job of [cron/jobs.json]: [wj_name] is [String(job.name)] when the
    field is present and not null ([None] otherwise); [wj_wake] is
    [job.wakeMode] when it is a string ([None] for any other value). *)
Record wake_job := mkWakeJob {
  wj_name : option string;
  wj_wake : option string;
  wj_rest : list (string * string)
}.

(** The loop over [parsed.jobs], mutating in place: the jobs afterwards and
    [changed]. *)
Fixpoint wake_now_loop (p : string) (js : list wake_job) : list wake_job * bool :=
  match js with
  | [] => ([], false)
  | j :: t =>
      let (t', changed) := wake_now_loop p t in
      let name := match wj_name j with Some n => n | None => EmptyString end in
      if negb (prefix p name) then (j :: t', changed)
      else if negb (match wj_wake j with Some w => w =? "now" | None => false end)
      then (mkWakeJob (wj_name j) (Some "now") (wj_rest j) :: t', true)
      else (j :: t', changed)
  end.

(** A job the loop sets to [now]. *)
Definition wake_needed (p : string) (j : wake_job) : bool :=
  prefix p (match wj_name j with Some n => n | None => EmptyString end)
  && negb (match wj_wake j with Some w => w =? "now" | None => false end).

(** What the loop does to one job. *)
Definition wake_step_rel (p : string) (j j' : wake_job) : Prop :=
  if wake_needed p j then j' = mkWakeJob (wj_name j) (Some "now") (wj_rest j) else j' = j.

(** The file's parsed [jobs]: [None] when it cannot be read or parsed,
    [Some None] when [jobs] is not an array.  The result is the job list
    written back, [None] when nothing is written. *)
Definition forceWorkflowWakeModeNow (workflowId : string)
    (parsed : option (option (list wake_job))) : option (list wake_job) :=
  match parsed with
  | Some (Some js) =>
      let (js', changed) := wake_now_loop (cron_prefix workflowId) js in
      if changed then Some js' else None
  | _ => None
  end.

(** ** Argument handling of [antfarm workflow run] (cli.ts, lines 833-849) *)

(** [Array.prototype.indexOf] ([None] for [-1]). *)
Fixpoint index_of (x : string) (l : list string) : option nat :=
  match l with
  | [] => None
  | y :: t => if y =? x then Some O else option_map S (index_of x t)
  end.

(** [l.splice(i, n)], the array afterwards. *)
Definition js_splice (l : list string) (i n : nat) : list string :=
  (firstn i l ++ skipn (i + n) l)%list.

(** [l.join(" ")] *)
Fixpoint join_space (l : list string) : string :=
  match l with
  | [] => EmptyString
  | [x] => x
  | x :: t => x ++ " " ++ join_space t
  end.

Record run_args := mkRunArgs {
  ra_notify_url : option string;
  ra_allow_concurrent : bool;
  ra_task_title : string
}.

(** Lines 834-847, from [runArgs = args.slice(3)]. *)
Definition parse_run_args (runArgs : list string) : run_args :=
  let '(notifyUrl, a1) :=
    match index_of "--notify-url" runArgs with
    | Some i => (nth_error runArgs (S i), js_splice runArgs i 2)
    | None => (None, runArgs)
    end in
  let '(allowConcurrent, a2) :=
    match index_of "--allow-concurrent" a1 with
    | Some i => (true, js_splice a1 i 1)
    | None => (false, a1)
    end in
  mkRunArgs notifyUrl allowConcurrent (js_trim (join_space a2)).

(** The first occurrence of [x] removed. *)
Fixpoint remove_first (x : string) (l : list string) : list string :=
  match l with
  | [] => []
  | y :: t => if y =? x then t else y :: remove_first x t
  end.

(** ** Arguments and threshold of [cleanup-stale] (cli.ts, lines 62-71 and
    530-547; run.ts, lines 17-23)

    [Number(raw)] and the number tests are the host's: [js_Number] is
    [Number], [num_truthy] JavaScript truthiness, [num_is_finite]
    [Number.isFinite], [num_gt0] and [num_le0] the comparisons [> 0] and
    [<= 0], and [num_floor_ms] is [Math.floor(x * 60_000)]. *)
Section Threshold.
Variable num : Type.
Variable js_Number : string -> num.
Variables num_truthy num_is_finite num_gt0 num_le0 : num -> bool.
Variable num_floor_ms : num -> Z.

Definition DEFAULT_STALE_ACTIVE_RUN_MS : Z := (120 * 60000)%Z.

(** run.ts [getStaleActiveRunThresholdMs]; [env] is
    [process.env.ANTFARM_STALE_ACTIVE_RUN_MINUTES]. *)
Definition getStaleActiveRunThresholdMs (env : option string) : Z :=
  match env with
  | None => DEFAULT_STALE_ACTIVE_RUN_MS
  | Some raw =>
      if raw =? EmptyString then DEFAULT_STALE_ACTIVE_RUN_MS
      else
        let parsed := js_Number raw in
        if negb (num_is_finite parsed) || num_le0 parsed then DEFAULT_STALE_ACTIVE_RUN_MS
        else num_floor_ms parsed
  end.

(** cli.ts [getStaleThresholdMs], its own copy of the env handling. *)
Definition getStaleThresholdMs (minutesOverride : option num) (env : option string) : Z :=
  match minutesOverride with
  | Some m =>
      if num_truthy m && num_is_finite m && num_gt0 m then num_floor_ms m
      else
        match env with
        | None => DEFAULT_STALE_ACTIVE_RUN_MS
        | Some raw =>
            if raw =? EmptyString then DEFAULT_STALE_ACTIVE_RUN_MS
            else
              let parsed := js_Number raw in
              if negb (num_is_finite parsed) || num_le0 parsed then DEFAULT_STALE_ACTIVE_RUN_MS
              else num_floor_ms parsed
        end
  | None =>
      match env with
      | None => DEFAULT_STALE_ACTIVE_RUN_MS
      | Some raw =>
          if raw =? EmptyString then DEFAULT_STALE_ACTIVE_RUN_MS
          else
            let parsed := js_Number raw in
            if negb (num_is_finite parsed) || num_le0 parsed then DEFAULT_STALE_ACTIVE_RUN_MS
            else num_floor_ms parsed
      end
  end.

Inductive cleanup_args :=
  | CleanupArgs (dryRun : bool) (workflowId : option string) (thresholdMs : Z)
  | CleanupArgsError (msg : string).

(** Lines 531-545 on the whole [args] ([process.argv.slice(2)]). *)
Definition parse_cleanup_args (args : list string) (env : option string) : cleanup_args :=
  let dryRun := existsb (String.eqb "--dry-run") args in
  let minutesOverride :=
    match index_of "--minutes" args with
    | None => inl None
    | Some i =>
        match nth_error args (S i) with
        | None => inr tt
        | Some raw =>
            if raw =? EmptyString then inr tt
            else
              let parsed := js_Number raw in
              if negb (num_is_finite parsed) || num_le0 parsed then inr tt
              else inl (Some parsed)
        end
    end in
  match minutesOverride with
  | inr _ => CleanupArgsError "Invalid --minutes value. Use a positive number."
  | inl mo =>
      let workflowId :=
        match nth_error args 2 with
        | Some t => if (t =? EmptyString) || prefix "--" t then None else Some t
        | None => None
        end in
      CleanupArgs dryRun workflowId (getStaleThresholdMs mo env)
  end.

End Threshold.

(** The usage error of an invalid [--minutes]. *)
Definition minutes_error : cleanup_args :=
  CleanupArgsError "Invalid --minutes value. Use a positive number.".

(** ** [antfarm probe] queue report (cli.ts, lines 356-509) *)

(** A row of the pending (or running) query; [pr_step_index] is the
    [ORDER BY] key [s.step_index], not a selected column. *)
Record probe_row := mkProbeRow {
  pr_run_id : string;
  pr_step_id : string;
  pr_run_created_at : string;
  pr_task : string;
  pr_step_index : nat
}.

(** [ORDER BY r.created_at ASC, s.step_index ASC]: rows equal on both keys
    may come in any order; an insertion sort fixes one. *)
Definition probe_row_le (a b : probe_row) : bool :=
  String.ltb (pr_run_created_at a) (pr_run_created_at b)
  || ((pr_run_created_at a =? pr_run_created_at b)
      && Nat.leb (pr_step_index a) (pr_step_index b)).

Fixpoint insert_probe_row (x : probe_row) (l : list probe_row) : list probe_row :=
  match l with
  | [] => [x]
  | y :: t => if probe_row_le x y then x :: y :: t else y :: insert_probe_row x t
  end.

Fixpoint sort_probe_rows (l : list probe_row) : list probe_row :=
  match l with
  | [] => []
  | x :: t => insert_probe_row x (sort_probe_rows t)
  end.

(** [FROM steps s JOIN runs r ON r.id = s.run_id WHERE s.agent_id = ? AND
    s.status = st AND r.status = 'running' ORDER BY ...] *)
Definition probe_rows (st agentId : string) (d : db) : list probe_row :=
  sort_probe_rows
    (flat_map (fun s =>
       if (step_agent_id s =? agentId) && (step_status s =? st) then
         map (fun r => mkProbeRow (step_run_id s) (step_id s) (run_created_at r) (run_task r)
                                  (step_index s))
             (filter (fun r => (run_id r =? step_run_id s) && (run_status r =? "running"))
                     (runs d))
       else []) (steps d)).

Record queue_item := mkQueueItem {
  qi_queue_pos : nat;
  qi_run_id : string;
  qi_step_id : string;
  qi_run_created_at : string;
  qi_task_preview : string
}.

(** The queue part of [report] ([scheduler] and [timestamp] are left out). *)
Record probe_report := mkProbeReport {
  rep_claimable_now : bool;
  rep_queue_depth : nat;
  rep_running_count : nat;
  rep_oldest_pending : option probe_row;
  rep_upcoming_queue : list queue_item
}.

Fixpoint queue_items (pos : nat) (rows : list probe_row) : list queue_item :=
  match rows with
  | [] => []
  | row :: t =>
      mkQueueItem pos (pr_run_id row) (pr_step_id row) (pr_run_created_at row)
                  (substring 0 120 (pr_task row)) :: queue_items (S pos) t
  end.

Definition probe_report_of (agentId : string) (d : db) : probe_report :=
  let pendingRows := probe_rows "pending" agentId d in
  let runningRows := probe_rows "running" agentId d in
  mkProbeReport (Nat.ltb 0 (List.length pendingRows)) (List.length pendingRows)
                (List.length runningRows) (hd_error pendingRows)
                (queue_items 1 (firstn 10 pendingRows)).



(** The scheduler lookup of [probe] (lines 381-440): the job named exactly
    [antfarm/<agentId>], first in the gateway's listing ([None] when listing
    fails), then in the CLI's [cron list --json] ([None] when it fails). *)
Definition probe_cron_name (agentId : string) : string := "antfarm/" ++ agentId.

Definition probe_cron_lookup (agentId : string) (listed fallback : option (list cron_job))
    : option cron_job :=
  let byName := find (fun j => cj_name j =? probe_cron_name agentId) in
  match match listed with Some js => byName js | None => None end with
  | Some j => Some j
  | None => match fallback with Some js => byName js | None => None end
  end.


(** ** Arguments of [antfarm logs] (cli.ts, lines 338-354) *)

Definition is_digit (c : ascii) : bool :=
  Nat.leb 48 (nat_of_ascii c) && Nat.leb (nat_of_ascii c) 57.

(** [/^\d+$/.test(s)] *)
Fixpoint digits_only (s : string) : bool :=
  match s with
  | EmptyString => true
  | String c t => is_digit c && digits_only t
  end.

Definition all_digits (s : string) : bool :=
  negb (s =? EmptyString) && digits_only s.

Fixpoint decimal_acc (acc : Z) (s : string) : Z :=
  match s with
  | EmptyString => acc
  | String c t => decimal_acc (acc * 10 + Z.of_nat (nat_of_ascii c - 48))%Z t
  end.

(** [parseInt(s, 10)], on the strings it is applied to here (a digit
    string, or the empty string, or none, for which it is [NaN]: [None]).
    The value is exact; JavaScript rounds those above 2^53. *)
Definition parse_int_digits (arg : option string) : option Z :=
  match arg with
  | Some s => if all_digits s then Some (decimal_acc 0 s) else None
  | None => None
  end.

Inductive logs_query := LogsRun (runId : string) | LogsRecent (limit : Z).

(** [arg && !/^\d+$/.test(arg)] picks the events of a run; otherwise
    [parseInt(arg, 10) || 50] recent events. *)
Definition logs_query_of (arg : option string) : logs_query :=
  match arg with
  | Some a => if negb (a =? EmptyString) && negb (all_digits a) then LogsRun a
              else match parse_int_digits arg with
                   | Some v => if (v =? 0)%Z then LogsRecent 50 else LogsRecent v
                   | None => LogsRecent 50
                   end
  | None => match parse_int_digits arg with
            | Some v => if (v =? 0)%Z then LogsRecent 50 else LogsRecent v
            | None => LogsRecent 50
            end
  end.

(** ** The run directory of [run-store.ts]

    [None] when [readdir] fails; otherwise the entries in [readdir] order,
    each with its content ([None] when [readFile] fails). *)
Definition run_dir : Type := option (list (string * option string)).

(** What [JSON.parse] gives for a file: a record with a string [taskTitle],
    or some other JSON value (which the cast lets through). *)
Inductive stored_run := StoredRun (r : workflow_run_record) | StoredOther.

(** [s.endsWith(suffix)] *)
Fixpoint ends_with (suffix s : string) : bool :=
  (s =? suffix) || match s with EmptyString => false | String _ t => ends_with suffix t end.

Section RunStore.
(** [JSON.parse] ([None] when it throws) and [JSON.stringify(record, null, 2)]. *)
Variable json_parse : string -> option stored_run.
Variable json_stringify : workflow_run_record -> string.

Definition listWorkflowRuns (dir : run_dir) : list stored_run :=
  match dir with
  | None => []
  | Some entries =>
      filter_some (fun e => if ends_with ".json" (fst e) then
                              match snd e with Some raw => json_parse raw | None => None end
                            else None) entries
  end.



(** [findRunByTaskTitle] on the directory: [inr] is the [TypeError] of
    [run.taskTitle.trim()] when [find] reaches a value that is not a record
    with a string [taskTitle]. *)
Fixpoint find_stored (normalized : string) (l : list stored_run)
    : option workflow_run_record + string :=
  match l with
  | [] => inl None
  | StoredOther :: _ => inr "TypeError"
  | StoredRun r :: t =>
      if normalizeTitle (wr_taskTitle r) =? normalized then inl (Some r) else find_stored normalized t
  end.

Definition findRunByTaskTitle_dir (dir : run_dir) (taskTitle : string)
    : option workflow_run_record + string :=
  find_stored (normalizeTitle taskTitle) (listWorkflowRuns dir).

End RunStore.

(** The records of a listing. *)
Fixpoint stored_records (l : list stored_run) : list workflow_run_record :=
  match l with
  | [] => []
  | StoredRun r :: t => r :: stored_records t
  | StoredOther :: t => stored_records t
  end.

(** [obj[k]] on an object built by [obj_set]. *)
Fixpoint obj_get (k : string) (o : list (string * string)) : option string :=
  match o with
  | [] => None
  | (k', v) :: t => if k' =? k then Some v else obj_get k t
  end.

(** ** Concrete rows used to evaluate the code *)

Definition sample_run (id wf st ts : string) : run :=
  mkRun id wf "task" st [] None ts ts.

Definition sample_step (uuid rid sid : string) (idx : nat) (st ty : string)
    (lc : option loop_config) (ts : string) : step :=
  mkStep uuid rid sid ("wf/" ++ sid) idx "" "" st 2 ty lc None None ts ts.

Definition epoch_iso : string := "1970-01-01T00:00:00.000Z".

(** 2025-10-14T12:00:00Z and the default 120-minute threshold. *)
Definition sample_now_ms : Z := 1760443200000%Z.
Definition sample_threshold_ms : Z := 7200000%Z.

(** A running run all of whose timestamps are the epoch. *)
Definition epoch_run : run := sample_run "r-epoch" "wf" "running" epoch_iso.
Definition epoch_db : db :=
  mkDb [epoch_run] [sample_step "s-epoch" "r-epoch" "plan" 0 "waiting" "single" None epoch_iso] [].

(** What a force-fail leaves of a step row, for the runs selected by
    [inrun]: a [waiting]/[pending]/[running] step becomes [failed] and carries
    an output, an output already present being kept; any other row is left
    as it was. *)
Definition force_failed (inrun : string -> bool) (s s' : step) : Prop :=
  if inrun (step_run_id s) && non_terminal (step_status s) then
    step_uuid s' = step_uuid s /\ step_run_id s' = step_run_id s
    /\ step_index s' = step_index s
    /\ step_status s' = "failed" /\ step_output s' <> None
    /\ (forall o, step_output s = Some o -> step_output s' = Some o)
  else s' = s.

(** What [cleanup-stale] leaves of a run row, for the runs selected by
    [inrun]: a [running] row becomes [failed]; any other row is unchanged. *)
Definition cleanup_run_rel (inrun : string -> bool) (r r' : run) : Prop :=
  if inrun (run_id r) && (run_status r =? "running") then
    run_id r' = run_id r /\ run_status r' = "failed"
  else r' = r.

Definition stale_ids (l : list stale_entry) (x : string) : bool :=
  existsb (fun e => se_id e =? x) l.

(** A stale run with open steps, last active at 09:00 on 2025-10-14. *)
Definition idle_iso : string := "2025-10-14T09:00:00.000Z".
Definition idle_run : run := sample_run "r-idle" "wf" "running" idle_iso.
Definition idle_db : db :=
  mkDb [idle_run]
    [sample_step "s-idle-0" "r-idle" "plan" 0 "done" "single" None idle_iso;
     sample_step "s-idle-1" "r-idle" "implement" 1 "pending" "single" None idle_iso;
     sample_step "s-idle-2" "r-idle" "review" 2 "waiting" "single" None idle_iso]
    [].

Definition sample_workflow : workflow :=
  mkWorkflow "wf"
    [mkWfStep "plan" "planner" "Plan {{task}}" "PLAN" None None None None;
     mkWfStep "implement" "developer" "Do {{PLAN}}" "DONE" (Some 3%nat) None None None;
     mkWfStep "review" "reviewer" "Review" "VERDICT" None (Some 1%nat) None None]
    [] None.

Definition sample_host (crons_ok : bool) : rw_host :=
  mkRwHost "2025-10-14T12:00:00.000Z" "r-new" (fun i => "s-new-" ++ z_to_string (Z.of_nat i))
    sample_now_ms sample_threshold_ms "2025-10-14T12:00:00.001Z" crons_ok.

(** Failed runs for [resume]. *)
Definition sample_story (uuid rid : string) (idx : nat) (st : string) : story :=
  mkStory uuid rid idx st idle_iso.

Definition sql_now : string := "2025-10-14 12:00:00".

(** A run failed at a single step [test], after a loop step that finished
    with one story failed. *)
Definition plain_failed_db : db :=
  mkDb [sample_run "r-plain" "wf" "failed" idle_iso]
    [sample_step "s-p-0" "r-plain" "implement" 0 "done" "loop"
       (Some (mkLoopConfig false None)) idle_iso;
     sample_step "s-p-1" "r-plain" "test" 1 "failed" "single" None idle_iso;
     sample_step "s-p-2" "r-plain" "pr" 2 "waiting" "single" None idle_iso]
    [sample_story "st-p-0" "r-plain" 0 "done"; sample_story "st-p-1" "r-plain" 1 "failed"].

(** A run whose verify step failed while its [verifyEach] loop step is
    [loop_status]. *)
Definition verify_failed_db (loop_status : string) : db :=
  mkDb [sample_run "r-ver" "wf" "failed" idle_iso]
    [sample_step "s-v-0" "r-ver" "implement" 0 loop_status "loop"
       (Some (mkLoopConfig true (Some "verify"))) idle_iso;
     sample_step "s-v-1" "r-ver" "verify" 1 "failed" "single" None idle_iso;
     sample_step "s-v-2" "r-ver" "pr" 2 "waiting" "single" None idle_iso]
    [sample_story "st-v-0" "r-ver" 0 "done"; sample_story "st-v-1" "r-ver" 1 "failed"].

Definition step_status_of (uuid : string) (d : db) : option string :=
  option_map step_status (find (fun s => step_uuid s =? uuid) (steps d)).

Definition story_status_of (uuid : string) (d : db) : option string :=
  option_map story_status (find (fun s => story_uuid s =? uuid) (stories d)).

Definition run_status_of (rid : string) (d : db) : option string :=
  option_map run_status (find (fun r => run_id r =? rid) (runs d)).

(** Two [running] runs of [wf]: [r-idle], the older, idle since 09:00, and
    [r-busy], started at 11:30 with a step running since 11:55. *)
Definition busy_iso : string := "2025-10-14T11:55:00.000Z".
Definition busy_run : run := sample_run "r-busy" "wf" "running" "2025-10-14T11:30:00.000Z".
Definition two_runs_db : db :=
  mkDb [busy_run; idle_run]
    (steps idle_db ++
     [sample_step "s-busy-0" "r-busy" "plan" 0 "running" "single" None busy_iso;
      sample_step "s-busy-1" "r-busy" "implement" 1 "waiting" "single" None busy_iso])%list
    [].

(** Stored run records for the title lookup. *)
Definition sample_records : list workflow_run_record :=
  [mkWorkflowRunRecord "a" "Ship it"; mkWorkflowRunRecord "b" "  fix BUG "; mkWorkflowRunRecord "c" "fix bug"].


(** A gateway that lists, passes the preflight, creates job [job-1] and
    deletes; one whose listing fails. *)
Definition sample_gateway : gateway := mkGateway true None (inl "job-1") (fun _ => true).
Definition unlisting_gateway : gateway := mkGateway false None (inl "job-1") (fun _ => true).

Definition sample_cron_workflow : cron_workflow :=
  mkCronWorkflow "wf" ["planner"; "developer"] None (Some "gpt") None.

(** The driver of another workflow. *)
Definition other_job : cron_job :=
  mkCronJob "job-0" "antfarm/other/driver" "other_planner" 300000 None 120 true.

(** [cron/jobs.json]: the workflow's driver, another workflow's, a job
    without a name. *)
Definition sample_wake_jobs : list wake_job :=
  [mkWakeJob (Some "antfarm/wf/driver") (Some "next-heartbeat") [("id", "job-1")];
   mkWakeJob (Some "antfarm/other/driver") None [("id", "job-0")];
   mkWakeJob None None []].

(** [Number] on decimal strings, on [jsnum]. *)
Definition sample_Number (s : string) : jsnum :=
  match num_at s 0 (String.length s) 0 with Some z => Num z | None => NaN end.
Definition sample_truthy (x : jsnum) : bool :=
  match x with Num z => negb (z =? 0)%Z | NaN => false end.
Definition sample_is_finite (x : jsnum) : bool := match x with Num _ => true | NaN => false end.
Definition sample_gt0 (x : jsnum) : bool := match x with Num z => (z >? 0)%Z | NaN => false end.
Definition sample_le0 (x : jsnum) : bool := match x with Num z => (z <=? 0)%Z | NaN => false end.
Definition sample_floor_ms (x : jsnum) : Z := match x with Num z => (z * 60000)%Z | NaN => 0%Z end.

(** Files of a run directory and what [JSON.parse] makes of their text. *)
Definition rec_a : workflow_run_record := mkWorkflowRunRecord "a" "Ship it".
Definition rec_b : workflow_run_record := mkWorkflowRunRecord "b" " Fix bug ".
Definition sample_json : list (string * stored_run) :=
  [("{a}" ++ String "010" EmptyString, StoredRun rec_a);
   ("{b}" ++ String "010" EmptyString, StoredRun rec_b);
   ("null", StoredOther)].
Definition sample_parse (s : string) : option stored_run :=
  option_map snd (find (fun p => fst p =? s) sample_json).
Definition sample_dir : run_dir :=
  Some [("a.json", Some ("{a}" ++ String "010" EmptyString)); ("notes.txt", Some "x");
        ("broken.json", None)].
Definition null_dir : run_dir :=
  Some [("z.json", Some "null"); ("a.json", Some ("{a}" ++ String "010" EmptyString))].

(** The driver [setupAgentCrons] creates for [sample_cron_workflow]. *)
Definition driver_job : cron_job :=
  mkCronJob "job-1" "antfarm/wf/driver" "wf_planner" 300000 (Some "gpt") 120 true.
Definition preflight_gateway : gateway :=
  mkGateway true (Some "cron tool unavailable") (inl "job-1") (fun _ => true).
Definition create_failing_gateway : gateway :=
  mkGateway true None (inr "gateway timeout") (fun _ => true).
Definition empty_db : db := mkDb [] [] [].

(** A workflow whose context sets [repo] and [task]. *)
Definition ctx_workflow : workflow :=
  mkWorkflow "wf" (wf_steps sample_workflow) [("repo", "antfarm"); ("task", "from workflow")]
    (Some "https://hooks.example/wf").

(** * Proofs *)

(** ** The two stale checks *)

Lemma cleanup_running_steps (ss : list step) :
  match match ss with [] => None | _ :: _ => Some (count_running ss) end with
  | Some n => n | None => O end = count_running ss.
Proof. destruct ss; reflexivity. Qed.

(** [cleanup-stale] and [runWorkflow] classify a run alike. *)
Lemma stale_checks_agree (dp : string -> jsnum) (nowMs thr : Z) (d : db) (r : run) :
  match cleanup_classify dp nowMs thr d r with Some _ => true | None => false end
  = rw_is_stale dp nowMs thr (active_row_of d r).
Proof.
  unfold cleanup_classify, rw_is_stale, rw_last_activity, active_row_of; cbn zeta.
  rewrite cleanup_running_steps; cbn [ar_running_steps ar_created_at ar_run_updated_at
    ar_step_updated_at].
  destruct (js_max3 _ _ _) as [x|]; cbn [js_le js_gt js_sub];
    [| rewrite !andb_false_r; reflexivity].
  destruct (x <=? 0)%Z eqn:E.
  - apply Z.leb_le in E.
    assert (F : (x >? 0)%Z = false) by (rewrite Z.gtb_ltb; apply Z.ltb_ge; lia).
    rewrite F.
    rewrite andb_false_r; reflexivity.
  - apply Z.leb_gt in E.
    assert (F : (x >? 0)%Z = true) by (rewrite Z.gtb_ltb; apply Z.ltb_lt; lia).
    rewrite F.
    rewrite andb_true_r.
    destruct (Nat.eqb _ 0 && (nowMs - x >? thr)%Z); reflexivity.
Qed.

Lemma rw_is_stale_active_row (dp : string -> jsnum) (nowMs thr : Z) (d : db) (r : run) :
  rw_is_stale dp nowMs thr (active_row_of d r)
  = Nat.eqb (count_running (steps_of d (run_id r))) 0
    && js_gt (rw_last_activity dp (active_row_of d r)) (Num 0)
    && js_gt (js_sub (Num nowMs) (rw_last_activity dp (active_row_of d r))) (Num thr).
Proof. reflexivity. Qed.

Lemma cleanup_classify_some (dp : string -> jsnum) (nowMs thr : Z) (d : db) (r : run) :
  cleanup_classify dp nowMs thr d r <> None
  <-> rw_is_stale dp nowMs thr (active_row_of d r) = true.
Proof.
  rewrite <- stale_checks_agree.
  destruct (cleanup_classify dp nowMs thr d r); split; congruence.
Qed.

Lemma cleanup_classify_none (dp : string -> jsnum) (nowMs thr : Z) (d : db) (r : run) :
  cleanup_classify dp nowMs thr d r = None
  <-> rw_is_stale dp nowMs thr (active_row_of d r) = false.
Proof.
  rewrite <- stale_checks_agree.
  destruct (cleanup_classify dp nowMs thr d r); split; congruence.
Qed.

(** ** C1 *)

(** C1 (as stated, refuted): a running run whose timestamps are all the
    epoch has zero running steps and [now - lastActivity > threshold], yet
    neither [runWorkflow]'s check nor [cleanup-stale] classifies it stale. *)
Lemma stale_check_counterexample :
  spec_is_stale iso_date_parse sample_now_ms sample_threshold_ms epoch_db epoch_run = true
  /\ rw_is_stale iso_date_parse sample_now_ms sample_threshold_ms
       (active_row_of epoch_db epoch_run) = false
  /\ cleanup_classify iso_date_parse sample_now_ms sample_threshold_ms epoch_db epoch_run = None.
Proof. vm_compute. repeat split. Qed.

(** C1 (amended): when the greatest step [updated_at] text carries the
    latest step time (so the computed [lastActivity] is the spec's
    maximum), both checks classify a run as stale exactly when it has zero
    running steps, [lastActivity > 0] and [now - lastActivity > threshold];
    a run with [lastActivity = now - threshold] is not stale, and one with
    [lastActivity = now - threshold - 1 > 0] and zero running steps is. *)
Theorem stale_check_spec (dp : string -> jsnum) (nowMs thr : Z) (d : db) (r : run)
    (Hmax : rw_last_activity dp (active_row_of d r) = spec_last_activity dp d r) :
  (rw_is_stale dp nowMs thr (active_row_of d r) = true
   <-> count_running (steps_of d (run_id r)) = O
       /\ js_gt (spec_last_activity dp d r) (Num 0) = true
       /\ spec_is_stale dp nowMs thr d r = true)
  /\ (cleanup_classify dp nowMs thr d r <> None
      <-> count_running (steps_of d (run_id r)) = O
          /\ js_gt (spec_last_activity dp d r) (Num 0) = true
          /\ spec_is_stale dp nowMs thr d r = true)
  /\ (spec_last_activity dp d r = Num (nowMs - thr) ->
      rw_is_stale dp nowMs thr (active_row_of d r) = false
      /\ cleanup_classify dp nowMs thr d r = None)
  /\ (spec_last_activity dp d r = Num (nowMs - thr - 1) -> (0 < nowMs - thr - 1)%Z ->
      count_running (steps_of d (run_id r)) = O ->
      rw_is_stale dp nowMs thr (active_row_of d r) = true
      /\ cleanup_classify dp nowMs thr d r <> None).
Proof.
  assert (Hiff : rw_is_stale dp nowMs thr (active_row_of d r) = true
                 <-> count_running (steps_of d (run_id r)) = O
                     /\ js_gt (spec_last_activity dp d r) (Num 0) = true
                     /\ spec_is_stale dp nowMs thr d r = true).
  { rewrite rw_is_stale_active_row, Hmax. unfold spec_is_stale.
    rewrite !andb_true_iff, Nat.eqb_eq. tauto. }
  split; [exact Hiff|].
  split; [rewrite cleanup_classify_some; exact Hiff|].
  split.
  - intros HL.
    assert (E : rw_is_stale dp nowMs thr (active_row_of d r) = false).
    { rewrite rw_is_stale_active_row, Hmax, HL. cbn [js_sub js_gt].
      replace (nowMs - (nowMs - thr))%Z with thr by lia.
      assert (F : (thr >? thr)%Z = false) by (rewrite Z.gtb_ltb; apply Z.ltb_irrefl).
      rewrite F, andb_false_r. reflexivity. }
    split; [exact E | apply cleanup_classify_none; exact E].
  - intros HL Hpos Hrun.
    assert (E : rw_is_stale dp nowMs thr (active_row_of d r) = true).
    { rewrite rw_is_stale_active_row, Hmax, HL, Hrun. cbn [js_sub js_gt Nat.eqb andb].
      rewrite !Z.gtb_ltb. apply andb_true_iff; split; apply Z.ltb_lt; lia. }
    split; [exact E | apply cleanup_classify_some; exact E].
Qed.

Lemma stale_check_spec_witness :
  rw_last_activity iso_date_parse (active_row_of epoch_db epoch_run)
    = spec_last_activity iso_date_parse epoch_db epoch_run
  /\ rw_is_stale iso_date_parse sample_now_ms sample_threshold_ms
       (active_row_of epoch_db epoch_run) = false.
Proof.
  assert (H : rw_last_activity iso_date_parse (active_row_of epoch_db epoch_run)
              = spec_last_activity iso_date_parse epoch_db epoch_run) by (vm_compute; reflexivity).
  split; [exact H|].
  destruct (stale_check_spec iso_date_parse sample_now_ms sample_threshold_ms
              epoch_db epoch_run H) as [Hiff _].
  apply not_true_is_false. intro E. apply Hiff in E. destruct E as [_ [E _]]. vm_compute in E. discriminate.
Defined.

(** ** C2 *)

Lemma Forall2_map_r {A B : Type} (R R' : A -> B -> Prop) (f : B -> B)
    (l1 : list A) (l2 : list B) :
  Forall2 R l1 l2 -> (forall x y, R x y -> R' x (f y)) -> Forall2 R' l1 (map f l2).
Proof. induction 1; intros HR; simpl; constructor; auto. Qed.

Lemma Forall2_map_same {A : Type} (R : A -> A -> Prop) (f : A -> A) (l : list A) :
  (forall x, R x (f x)) -> Forall2 R l (map f l).
Proof. intros HR; induction l; simpl; constructor; auto. Qed.

Lemma fail_open_step_force_failed (reason ts rid : string) (s : step) :
  force_failed (String.eqb rid) s (fail_open_step reason ts rid s).
Proof.
  unfold force_failed, fail_open_step.
  rewrite (String.eqb_sym rid).
  destruct ((step_run_id s =? rid) && non_terminal (step_status s)); [|reflexivity].
  cbn. repeat split; [discriminate | intros o Ho; rewrite Ho; reflexivity].
Qed.

(** Force-failing one more run after the runs of [inrun]. *)
Lemma force_failed_step_more (inrun : string -> bool) (reason ts rid : string) (s s1 : step) :
  force_failed inrun s s1 ->
  force_failed (fun x => inrun x || (rid =? x)) s (fail_open_step reason ts rid s1).
Proof.
  unfold force_failed. intros H.
  destruct (inrun (step_run_id s) && non_terminal (step_status s)) eqn:E.
  - destruct H as (Hu & Hr & Hi & Hst & Ho & Hk).
    apply andb_true_iff in E as [E1 E2].
    rewrite E1, E2. cbn.
    unfold fail_open_step. rewrite Hst. cbn. rewrite andb_false_r.
    repeat split; assumption.
  - subst s1. unfold fail_open_step.
    rewrite (String.eqb_sym rid).
    destruct (step_run_id s =? rid) eqn:Er; cbn.
    + destruct (non_terminal (step_status s)) eqn:En;
        [| rewrite !andb_false_r; reflexivity].
      rewrite orb_true_r. cbn.
      repeat split; [discriminate | intros o Ho; rewrite Ho; reflexivity].
    + rewrite orb_false_r, E. reflexivity.
Qed.

Lemma cleanup_fail_one_effect (ts : string) (l : list stale_entry) :
  forall (inrun : string -> bool) (d0 d1 : db),
  Forall2 (cleanup_run_rel inrun) (runs d0) (runs d1) ->
  Forall2 (force_failed inrun) (steps d0) (steps d1) ->
  stories d1 = stories d0 ->
  let d2 := fold_left (cleanup_fail_one ts) l d1 in
  Forall2 (cleanup_run_rel (fun x => inrun x || stale_ids l x)) (runs d0) (runs d2)
  /\ Forall2 (force_failed (fun x => inrun x || stale_ids l x)) (steps d0) (steps d2)
  /\ stories d2 = stories d0.
Proof.
  induction l as [|e l IH]; intros inrun d0 d1 Hr Hs Hst; cbn.
  - split; [|split; [|exact Hst]].
    + eapply Forall2_impl; [|exact Hr]. intros a b.
      unfold cleanup_run_rel. rewrite orb_false_r. exact (fun x => x).
    + eapply Forall2_impl; [|exact Hs]. intros a b.
      unfold force_failed. rewrite orb_false_r. exact (fun x => x).
  - destruct (IH (fun x => inrun x || (se_id e =? x)) d0 (cleanup_fail_one ts d1 e))
      as (IH1 & IH2 & IH3).
    + cbn. eapply Forall2_map_r; [exact Hr|]. intros a b.
      unfold cleanup_run_rel. intros H.
      destruct (inrun (run_id a) && (run_status a =? "running")) eqn:E.
      * destruct H as [H1 H2]. rewrite H1, H2.
        apply andb_true_iff in E as [E1 E2]. rewrite E1, E2. cbn.
        rewrite andb_false_r. split; assumption.
      * subst b. destruct (run_status a =? "running") eqn:Es;
          [| rewrite !andb_false_r; reflexivity].
        rewrite andb_true_r in E |- *. rewrite andb_true_r, E. cbn.
        rewrite (String.eqb_sym (se_id e)).
        destruct (run_id a =? se_id e); cbn; [split; reflexivity | reflexivity].
    + cbn. eapply Forall2_map_r; [exact Hs|]. intros a b H.
      exact (force_failed_step_more inrun _ ts (se_id e) a b H).
    + cbn. exact Hst.
    + split; [|split; [|exact IH3]].
      * eapply Forall2_impl; [|exact IH1]. intros a b.
        unfold cleanup_run_rel, stale_ids. cbn. rewrite orb_assoc. exact (fun x => x).
      * eapply Forall2_impl; [|exact IH2]. intros a b.
        unfold force_failed, stale_ids. cbn. rewrite orb_assoc. exact (fun x => x).
Qed.

Lemma insert_by_created_in (x r : run) (l : list run) :
  In x (insert_by_created r l) <-> x = r \/ In x l.
Proof.
  induction l as [|y l IH]; cbn; [intuition congruence|].
  destruct (String.leb (run_created_at r) (run_created_at y)); cbn;
    [intuition congruence|].
  rewrite IH. intuition congruence.
Qed.

Lemma sort_by_created_in (x : run) (l : list run) :
  In x (sort_by_created l) <-> In x l.
Proof.
  induction l as [|y l IH]; cbn; [tauto|].
  rewrite insert_by_created_in, IH. intuition congruence.
Qed.

Lemma filter_some_in {A B : Type} (f : A -> option B) (l : list A) (y : B) :
  In y (filter_some f l) -> exists x, In x l /\ f x = Some y.
Proof.
  induction l as [|x l IH]; cbn; [tauto|].
  destruct (f x) eqn:E; cbn.
  - intros [<-|H]; [exists x; auto|]. destruct (IH H) as (x' & ? & ?). eauto.
  - intros H. destruct (IH H) as (x' & ? & ?). eauto.
Qed.

Lemma cleanup_classify_id (dp : string -> jsnum) (nowMs thr : Z) (d : db) (r : run)
    (e : stale_entry) :
  cleanup_classify dp nowMs thr d r = Some e -> se_id e = run_id r.
Proof.
  unfold cleanup_classify. cbn zeta.
  destruct (js_le _ _); [discriminate|].
  destruct (_ && _); [|discriminate]. intros H; injection H as <-. reflexivity.
Qed.

(** Every run [cleanup-stale] reports stale is a [running] row of the store. *)
Lemma cleanup_stale_running (dp : string -> jsnum) (wf : option string) (thr nowMs : Z)
    (dryRun : bool) (ts : string) (d d' : db) (l : list stale_entry) :
  cleanup_stale dp wf thr nowMs dryRun ts d = (d', l) ->
  forall e, In e l -> exists r, In r (runs d) /\ run_id r = se_id e /\ run_status r = "running".
Proof.
  unfold cleanup_stale.
  assert (Hin : forall e, In e (filter_some (cleanup_classify dp nowMs thr d)
                                  (cleanup_candidates wf d)) ->
                exists r, In r (runs d) /\ run_id r = se_id e /\ run_status r = "running").
  { intros e He. apply filter_some_in in He as (r & Hr & He).
    apply cleanup_classify_id in He.
    unfold cleanup_candidates in Hr. apply sort_by_created_in, filter_In in Hr as [Hr Hf].
    apply andb_true_iff in Hf as [Hf _]. apply String.eqb_eq in Hf.
    exists r. auto. }
  destruct (filter_some _ _) as [|x t]; intros H.
  - injection H as _ <-. intros e [].
  - destruct dryRun; injection H as _ <-; exact Hin.
Qed.

(** C2: force-failing a stale run.  In [runWorkflow] (one transaction, run.ts
    lines 95-110) the run row becomes [failed]; in [cleanup-stale] (one
    transaction for the whole batch) every reported run is a [running] row and
    becomes [failed].  In both, each [waiting]/[pending]/[running] step of a
    failed run becomes [failed] with an output, an existing output being
    kept; every other step row, and every story, is left unchanged. *)
Theorem force_fail_effect (dp : string -> jsnum) :
  (forall (h : rw_host) (wf : workflow) (d : db) (r : run),
     active_run wf d = Some r ->
     rw_is_stale dp (h_now_ms h) (h_threshold_ms h) (active_row_of d r) = true ->
     exists d', concurrency_guard dp h wf false d = inl d'
       /\ Forall2 (fun r0 r0' => if run_id r0 =? run_id r
                                 then run_id r0' = run_id r0 /\ run_status r0' = "failed"
                                 else r0' = r0) (runs d) (runs d')
       /\ Forall2 (force_failed (String.eqb (run_id r))) (steps d) (steps d')
       /\ stories d' = stories d)
  /\ (forall (wf : option string) (thr nowMs : Z) (ts : string) (d d' : db)
        (l : list stale_entry),
     cleanup_stale dp wf thr nowMs false ts d = (d', l) ->
     (forall e, In e l -> exists r, In r (runs d) /\ run_id r = se_id e
                                    /\ run_status r = "running")
     /\ Forall2 (cleanup_run_rel (stale_ids l)) (runs d) (runs d')
     /\ Forall2 (force_failed (stale_ids l)) (steps d) (steps d')
     /\ stories d' = stories d).
Proof.
  split.
  - intros h wf d r Hact Hst.
    unfold concurrency_guard. rewrite Hact. fold (active_row_of d r). rewrite Hst.
    eexists; split; [reflexivity|]. cbn [rw_force_fail runs steps stories ar_id active_row_of].
    split; [|split; [|reflexivity]].
    + apply Forall2_map_same. intros x.
      destruct (run_id x =? run_id r); [split; reflexivity | reflexivity].
    + apply Forall2_map_same. intros x. apply fail_open_step_force_failed.
  - intros wf thr nowMs ts d d' l H.
    split; [exact (cleanup_stale_running dp wf thr nowMs false ts d d' l H)|].
    unfold cleanup_stale in H.
    destruct (filter_some _ _) as [|x t] eqn:E.
    + injection H as <- <-.
      split; [|split; [|reflexivity]].
      * assert (Hm := Forall2_map_same (cleanup_run_rel (stale_ids [])) (fun x => x) (runs d)).
        rewrite map_id in Hm. apply Hm. intros y; unfold cleanup_run_rel; reflexivity.
      * assert (Hm := Forall2_map_same (force_failed (stale_ids [])) (fun x => x) (steps d)).
        rewrite map_id in Hm. apply Hm. intros y; unfold force_failed; reflexivity.
    + injection H as <- <-.
      destruct (cleanup_fail_one_effect ts (x :: t) (fun _ => false) d d)
        as (H1 & H2 & H3).
      * assert (Hm := Forall2_map_same (cleanup_run_rel (fun _ => false)) (fun x => x) (runs d)).
        rewrite map_id in Hm. apply Hm. intros y; reflexivity.
      * assert (Hm := Forall2_map_same (force_failed (fun _ => false)) (fun x => x) (steps d)).
        rewrite map_id in Hm. apply Hm. intros y; reflexivity.
      * reflexivity.
      * cbn zeta in H1, H2, H3. split; [|split; [|exact H3]]; assumption.
Qed.

Lemma force_fail_effect_witness :
  active_run sample_workflow idle_db = Some idle_run
  /\ rw_is_stale iso_date_parse sample_now_ms sample_threshold_ms
       (active_row_of idle_db idle_run) = true
  /\ exists d', concurrency_guard iso_date_parse (sample_host true) sample_workflow false idle_db
                = inl d'
       /\ Forall2 (force_failed (String.eqb "r-idle")) (steps idle_db) (steps d').
Proof.
  assert (Ha : active_run sample_workflow idle_db = Some idle_run) by reflexivity.
  assert (Hs : rw_is_stale iso_date_parse sample_now_ms sample_threshold_ms
                 (active_row_of idle_db idle_run) = true) by (vm_compute; reflexivity).
  split; [exact Ha|]. split; [exact Hs|].
  destruct (proj1 (force_fail_effect iso_date_parse) (sample_host true) sample_workflow
              idle_db idle_run Ha Hs) as (d' & H1 & _ & H3 & _).
  exists d'. split; [exact H1 | exact H3].
Defined.

(** ** Resume *)

Lemma min_story_by_index_in (l : list story) (x : story) :
  min_story_by_index l = Some x -> In x l.
Proof.
  induction l as [|y t IH]; cbn [min_story_by_index In]; [discriminate|].
  destruct (min_story_by_index t) as [m|] eqn:Em.
  - destruct (Nat.ltb (story_index m) (story_index y)); intros H; injection H as <-;
      [right; apply IH; reflexivity | left; reflexivity].
  - intros H; injection H as <-. left; reflexivity.
Qed.

Lemma first_failed_step_none (rid : string) (d : db) :
  (forall s, In s (steps d) -> step_run_id s = rid -> step_status s <> "failed") ->
  first_failed_step rid d = None.
Proof.
  intros H. unfold first_failed_step.
  destruct (filter _ (steps d)) as [|s t] eqn:E; [reflexivity|].
  exfalso. assert (Hin : In s (filter (fun s => (step_run_id s =? rid) && (step_status s =? "failed")) (steps d)))
    by (rewrite E; left; reflexivity).
  apply filter_In in Hin as [Hin Hf]. apply andb_true_iff in Hf as [H1 H2].
  apply String.eqb_eq in H1, H2. exact (H s Hin H1 H2).
Qed.

(** C5: [resume] stops with an error, leaving the store as it was, when no
    run matches the target, when the matched run is not [failed], or when the
    run has no [failed] step. *)
Theorem resume_preconditions (target now : string) (d : db) :
  (find_target_run target d = None ->
   exists msg, resume target now d = (ResumeErr msg, d))
  /\ (forall r, find_target_run target d = Some r -> run_status r <> "failed" ->
      exists msg, resume target now d = (ResumeErr msg, d))
  /\ (forall r, find_target_run target d = Some r ->
      (forall s, In s (steps d) -> step_run_id s = run_id r -> step_status s <> "failed") ->
      exists msg, resume target now d = (ResumeErr msg, d)).
Proof.
  unfold resume.
  destruct target as [|c t]; [split; [|split]; intros; eexists; reflexivity|].
  split; [|split].
  - intros H. rewrite H. eexists; reflexivity.
  - intros r H Hs. rewrite H.
    destruct (run_status r =? "failed") eqn:E; [apply String.eqb_eq in E; contradiction|].
    eexists; reflexivity.
  - intros r H Hn. rewrite H.
    destruct (run_status r =? "failed"); cbn [negb]; [|eexists; reflexivity].
    rewrite (first_failed_step_none (run_id r) d Hn). eexists; reflexivity.
Qed.

Lemma resume_preconditions_witness :
  find_target_run "r-idle" idle_db = Some idle_run
  /\ run_status idle_run <> "failed"
  /\ exists msg, resume "r-idle" sql_now idle_db = (ResumeErr msg, idle_db).
Proof.
  assert (H1 : find_target_run "r-idle" idle_db = Some idle_run) by reflexivity.
  assert (H2 : run_status idle_run <> "failed") by discriminate.
  split; [exact H1|]. split; [exact H2|].
  exact (proj1 (proj2 (resume_preconditions "r-idle" sql_now idle_db)) idle_run H1 H2).
Defined.

Lemma Forall2_map_in {A : Type} (R : A -> A -> Prop) (f : A -> A) (l : list A) :
  (forall x, In x l -> R x (f x)) -> Forall2 R l (map f l).
Proof.
  induction l as [|x t IH]; intros H; cbn; constructor.
  - apply H; left; reflexivity.
  - apply IH; intros y Hy; apply H; right; exact Hy.
Qed.

Lemma reset_failed_loop_story_steps (fs : step) (rid now : string) (d : db) :
  steps (reset_failed_loop_story fs rid now d) = steps d
  /\ runs (reset_failed_loop_story fs rid now d) = runs d.
Proof.
  unfold reset_failed_loop_story.
  destruct (step_type fs =? "loop"); [destruct (first_failed_story rid d)|]; split; reflexivity.
Qed.

Lemma resume_loop_step_same_steps (rid : string) (d d' : db) :
  steps d' = steps d -> resume_loop_step rid d' = resume_loop_step rid d.
Proof. unfold resume_loop_step. intros ->. reflexivity. Qed.

(** Unfolding [resume] down to the branch taken. *)
Lemma resume_unfold (target now : string) (d : db) (r : run) (fs : step) :
  target <> EmptyString ->
  find_target_run target d = Some r -> run_status r = "failed" ->
  first_failed_step (run_id r) d = Some fs ->
  exists msg,
    resume target now d =
    (Resumed msg,
     let d1 := reset_failed_loop_story fs (run_id r) now d in
     match resume_loop_step (run_id r) d with
     | Some l => if verify_pairing (Some l) fs then resume_verify_branch l fs (run_id r) now d1
                 else resume_plain_branch fs (run_id r) now d1
     | None => resume_plain_branch fs (run_id r) now d1
     end).
Proof.
  intros Ht Hr Hs Hfs. unfold resume.
  destruct target as [|c t]; [contradiction|].
  rewrite Hr, Hs, String.eqb_refl. cbn [negb]. rewrite Hfs.
  rewrite (resume_loop_step_same_steps (run_id r) d _
             (proj1 (reset_failed_loop_story_steps fs (run_id r) now d))).
  destruct (resume_loop_step (run_id r) d) as [l|];
    [destruct (verify_pairing (Some l) fs)|]; eexists; reflexivity.
Qed.

Lemma plain_branch_effect (fs : step) (rid now : string) (d : db) :
  Forall2 (fun s s' => if step_uuid s =? step_uuid fs
                       then step_status s' = "pending" /\ step_current_story_id s' = None
                       else s' = s)
          (steps d) (steps (resume_plain_branch fs rid now d))
  /\ Forall2 (fun x x' => if run_id x =? rid then run_status x' = "running" else x' = x)
             (runs d) (runs (resume_plain_branch fs rid now d))
  /\ stories (resume_plain_branch fs rid now d) = stories d.
Proof.
  unfold resume_plain_branch, set_run_running, reset_step; cbn [runs steps stories].
  split; [|split; [|reflexivity]]; apply Forall2_map_same; intros x.
  - destruct (step_uuid x =? step_uuid fs); [split|]; reflexivity.
  - destruct (run_id x =? rid); reflexivity.
Qed.

(** C3 (as stated, refuted): the run failed at the single step [test]; it has
    a loop step and a [failed] story, but [resume] leaves that story
    [failed]. *)
Lemma resume_plain_counterexample :
  step_status_of "s-p-0" plain_failed_db = Some "done"
  /\ story_status_of "st-p-1" plain_failed_db = Some "failed"
  /\ first_failed_step "r-plain" plain_failed_db
     = find (fun s => step_uuid s =? "s-p-1") (steps plain_failed_db)
  /\ story_status_of "st-p-1" (snd (resume "r-plain" sql_now plain_failed_db)) = Some "failed"
  /\ step_status_of "s-p-1" (snd (resume "r-plain" sql_now plain_failed_db)) = Some "pending".
Proof. vm_compute. repeat split. Qed.

(** C3 (amended): when the lowest-index failed step [fs] is nobody's
    [verifyEach] verify step, [resume] sets [fs] to [pending] with no current
    story, sets the run to [running] and leaves every other step row as it
    was; the lowest-index [failed] story of the run is reset to [pending]
    only when [fs] is itself a loop step, and the stories are untouched
    otherwise. *)
Theorem resume_plain_step (target now : string) (d : db) (r : run) (fs : step)
    (Ht : target <> EmptyString)
    (Hr : find_target_run target d = Some r) (Hs : run_status r = "failed")
    (Hfs : first_failed_step (run_id r) d = Some fs)
    (Hnp : forall l lc, In l (steps d) -> step_run_id l = run_id r -> step_type l = "loop" ->
           step_loop_config l = Some lc -> verifyEach lc = true ->
           verifyStep lc <> Some (step_id fs)) :
  (exists msg, fst (resume target now d) = Resumed msg)
  /\ Forall2 (fun s s' => if step_uuid s =? step_uuid fs
                          then step_status s' = "pending" /\ step_current_story_id s' = None
                          else s' = s)
             (steps d) (steps (snd (resume target now d)))
  /\ Forall2 (fun x x' => if run_id x =? run_id r then run_status x' = "running" else x' = x)
             (runs d) (runs (snd (resume target now d)))
  /\ (step_type fs <> "loop" -> stories (snd (resume target now d)) = stories d)
  /\ (step_type fs = "loop" -> forall st, first_failed_story (run_id r) d = Some st ->
      Forall2 (fun x x' => if story_uuid x =? story_uuid st
                           then story_status x' = "pending" else x' = x)
              (stories d) (stories (snd (resume target now d)))).
Proof.
  destruct (resume_unfold target now d r fs Ht Hr Hs Hfs) as [msg Hres].
  assert (Hpl : forall l, resume_loop_step (run_id r) d = Some l ->
                          verify_pairing (Some l) fs = false).
  { intros l Hl. unfold resume_loop_step in Hl. apply find_some in Hl as [Hin Hp].
    apply andb_true_iff in Hp as [Hp Hst]. apply andb_true_iff in Hp as [Hp1 Hp2].
    apply String.eqb_eq in Hp1, Hp2.
    unfold verify_pairing.
    destruct (step_loop_config l) as [lc|] eqn:Hlc; [|reflexivity].
    destruct (verifyEach lc) eqn:Hv; [|reflexivity].
    destruct (verifyStep lc) as [v|] eqn:Hvs; [|reflexivity]. cbn.
    destruct (v =? step_id fs) eqn:E; [|reflexivity].
    apply String.eqb_eq in E. subst v.
    exfalso. exact (Hnp l lc Hin Hp1 Hp2 Hlc Hv Hvs). }
  cbn zeta in Hres.
  assert (Hd : snd (resume target now d)
               = resume_plain_branch fs (run_id r) now (reset_failed_loop_story fs (run_id r) now d)).
  { rewrite Hres. cbn [snd].
    destruct (resume_loop_step (run_id r) d) as [l|] eqn:El; [rewrite (Hpl l eq_refl)|];
      reflexivity. }
  destruct (reset_failed_loop_story_steps fs (run_id r) now d) as [Hst Hru].
  destruct (plain_branch_effect fs (run_id r) now (reset_failed_loop_story fs (run_id r) now d))
    as (E1 & E2 & E3).
  rewrite Hd, Hst in *. rewrite Hru in E2.
  split; [exists msg; rewrite Hres; reflexivity|].
  split; [exact E1|]. split; [exact E2|].
  rewrite E3. unfold reset_failed_loop_story.
  split.
  - intros Hn. destruct (step_type fs =? "loop") eqn:E; [apply String.eqb_eq in E; contradiction|].
    reflexivity.
  - intros Hl st Hfst. rewrite Hl, String.eqb_refl, Hfst. cbn [stories].
    apply Forall2_map_same. intros x.
    destruct (story_uuid x =? story_uuid st); reflexivity.
Qed.

Lemma resume_plain_step_witness :
  find_target_run "r-plain" plain_failed_db = Some (sample_run "r-plain" "wf" "failed" idle_iso)
  /\ exists msg, fst (resume "r-plain" sql_now plain_failed_db) = Resumed msg.
Proof.
  assert (Hr : find_target_run "r-plain" plain_failed_db
               = Some (sample_run "r-plain" "wf" "failed" idle_iso)) by reflexivity.
  split; [exact Hr|].
  refine (proj1 (resume_plain_step "r-plain" sql_now plain_failed_db _
                   (sample_step "s-p-1" "r-plain" "test" 1 "failed" "single" None idle_iso)
                   _ Hr eq_refl eq_refl _)).
  - discriminate.
  - intros l lc Hin Hrun Hty Hlc Hv.
    cbn in Hin. destruct Hin as [<-|[<-|[<-|[]]]]; cbn in *; try discriminate.
    injection Hlc as <-. discriminate.
Defined.

Lemma step_uuid_upd (st : string) (cur out : option string) (ts : string) (s : step) :
  step_uuid (upd_step st cur out ts s) = step_uuid s.
Proof. reflexivity. Qed.

Lemma nodup_map_inj {A B : Type} (f : A -> B) (l : list A) (a b : A) :
  NoDup (map f l) -> In a l -> In b l -> f a = f b -> a = b.
Proof.
  induction l as [|x t IH]; cbn; [tauto|].
  intros Hn Ha Hb Hf. inversion Hn as [|y u Hx Hnt]; subst.
  destruct Ha as [<-|Ha], Hb as [<-|Hb]; auto.
  - exfalso. apply Hx. rewrite Hf. apply in_map. exact Hb.
  - exfalso. apply Hx. rewrite <- Hf. apply in_map. exact Ha.
Qed.

Lemma min_story_failed (rid : string) (d : db) (st : story) :
  first_failed_story rid d = Some st ->
  In st (stories d) /\ story_run_id st = rid /\ story_status st = "failed".
Proof.
  unfold first_failed_story. intros H. apply min_story_by_index_in in H.
  apply filter_In in H as [Hin Hf]. apply andb_true_iff in Hf as [H1 H2].
  apply String.eqb_eq in H1, H2. auto.
Qed.

(** C4 (as stated, refuted): the failed [verify] step is the verify step of
    the [verifyEach] loop step [implement], but that loop step is [done], so
    [resume] takes the plain branch: [verify] becomes [pending] rather than
    [waiting], and the loop step stays [done]. *)
Lemma resume_verify_counterexample :
  first_failed_step "r-ver" (verify_failed_db "done")
    = Some (sample_step "s-v-1" "r-ver" "verify" 1 "failed" "single" None idle_iso)
  /\ step_loop_config (sample_step "s-v-0" "r-ver" "implement" 0 "done" "loop"
       (Some (mkLoopConfig true (Some "verify"))) idle_iso)
     = Some (mkLoopConfig true (Some "verify"))
  /\ step_status_of "s-v-1" (snd (resume "r-ver" sql_now (verify_failed_db "done")))
     = Some "pending"
  /\ step_status_of "s-v-0" (snd (resume "r-ver" sql_now (verify_failed_db "done")))
     = Some "done".
Proof. vm_compute. repeat split. Qed.

(** C4 (amended): when the lowest-index failed step [fs] is the verify step
    of the loop step [l] that [resume] selects (the first loop step of the
    run in status [running] or [failed]) and [l] has [verifyEach], [resume]
    sets [l] to [pending] and [fs] to [waiting], both with no current story;
    every other step row is left as it was; every [failed] story of the run
    becomes [pending], other stories being left as they were (story ids
    being unique); and the run is set to [running]. *)
Theorem resume_verify_pairing (target now : string) (d : db) (r : run) (fs l : step)
    (lc : loop_config)
    (Ht : target <> EmptyString)
    (Hr : find_target_run target d = Some r) (Hs : run_status r = "failed")
    (Hfs : first_failed_step (run_id r) d = Some fs)
    (Hl : resume_loop_step (run_id r) d = Some l)
    (Hlc : step_loop_config l = Some lc) (Hv : verifyEach lc = true)
    (Hvs : verifyStep lc = Some (step_id fs))
    (Hne : step_uuid l <> step_uuid fs)
    (Hids : NoDup (map story_uuid (stories d))) :
  (exists msg, fst (resume target now d) = Resumed msg)
  /\ Forall2 (fun s s' =>
        if step_uuid s =? step_uuid l
        then step_status s' = "pending" /\ step_current_story_id s' = None
        else if step_uuid s =? step_uuid fs
        then step_status s' = "waiting" /\ step_current_story_id s' = None
        else s' = s)
       (steps d) (steps (snd (resume target now d)))
  /\ Forall2 (fun x x' =>
        if (story_run_id x =? run_id r) && (story_status x =? "failed")
        then story_status x' = "pending" else x' = x)
       (stories d) (stories (snd (resume target now d)))
  /\ Forall2 (fun x x' => if run_id x =? run_id r then run_status x' = "running" else x' = x)
       (runs d) (runs (snd (resume target now d))).
Proof.
  destruct (resume_unfold target now d r fs Ht Hr Hs Hfs) as [msg Hres].
  rewrite Hl in Hres. cbn zeta in Hres.
  assert (Hp : verify_pairing (Some l) fs = true).
  { unfold verify_pairing. rewrite Hlc, Hv, Hvs. cbn. apply String.eqb_refl. }
  rewrite Hp in Hres. rewrite Hres. cbn [fst snd].
  destruct (reset_failed_loop_story_steps fs (run_id r) now d) as [Hst Hru].
  set (d1 := reset_failed_loop_story fs (run_id r) now d) in *.
  unfold resume_verify_branch, set_run_running, reset_step; cbn [runs steps stories].
  rewrite Hst, Hru, map_map.
  split; [exists msg; reflexivity|].
  split; [|split].
  - apply Forall2_map_same. intros x.
    destruct (step_uuid x =? step_uuid l) eqn:E1; rewrite ?step_uuid_upd.
    + apply String.eqb_eq in E1.
      destruct (step_uuid x =? step_uuid fs) eqn:E2;
        [apply String.eqb_eq in E2; congruence|]. split; reflexivity.
    + destruct (step_uuid x =? step_uuid fs); [split|]; reflexivity.
  - unfold d1, reset_failed_loop_story.
    destruct (step_type fs =? "loop");
      [destruct (first_failed_story (run_id r) d) as [st0|] eqn:Est|]; cbn [stories].
    + rewrite map_map. destruct (min_story_failed _ _ _ Est) as (Hin0 & Hr0 & Hs0).
      apply Forall2_map_in. intros x Hx.
      destruct (story_uuid x =? story_uuid st0) eqn:Eu.
      * apply String.eqb_eq in Eu.
        rewrite (nodup_map_inj story_uuid (stories d) x st0 Hids Hx Hin0 Eu).
        rewrite Hr0, Hs0, !String.eqb_refl. rewrite andb_false_r. reflexivity.
      * destruct ((story_run_id x =? run_id r) && (story_status x =? "failed")); reflexivity.
    + apply Forall2_map_same. intros x.
      destruct ((story_run_id x =? run_id r) && (story_status x =? "failed")); reflexivity.
    + apply Forall2_map_same. intros x.
      destruct ((story_run_id x =? run_id r) && (story_status x =? "failed")); reflexivity.
  - apply Forall2_map_same. intros x.
    destruct (run_id x =? run_id r); reflexivity.
Qed.

Lemma resume_verify_pairing_witness :
  resume_loop_step "r-ver" (verify_failed_db "running")
    = Some (sample_step "s-v-0" "r-ver" "implement" 0 "running" "loop"
              (Some (mkLoopConfig true (Some "verify"))) idle_iso)
  /\ exists msg, fst (resume "r-ver" sql_now (verify_failed_db "running")) = Resumed msg.
Proof.
  assert (Hl : resume_loop_step "r-ver" (verify_failed_db "running")
               = Some (sample_step "s-v-0" "r-ver" "implement" 0 "running" "loop"
                         (Some (mkLoopConfig true (Some "verify"))) idle_iso)) by reflexivity.
  split; [exact Hl|].
  refine (proj1 (resume_verify_pairing "r-ver" sql_now (verify_failed_db "running")
                   (sample_run "r-ver" "wf" "failed" idle_iso)
                   (sample_step "s-v-1" "r-ver" "verify" 1 "failed" "single" None idle_iso)
                   _ (mkLoopConfig true (Some "verify"))
                   _ eq_refl eq_refl eq_refl Hl eq_refl eq_refl eq_refl _ _)).
  - discriminate.
  - discriminate.
  - vm_compute. repeat constructor; cbn; intuition discriminate.
Defined.

(** ** C9 *)

Lemma js_max2_not_pos (a b : jsnum) :
  js_gt a (Num 0) = false -> js_gt b (Num 0) = false -> js_gt (js_max2 a b) (Num 0) = false.
Proof.
  destruct a as [x|], b as [y|]; cbn; try reflexivity.
  rewrite !Z.gtb_ltb, !Z.ltb_ge. lia.
Qed.

Lemma sql_max_text_in (l : list string) (x : string) : sql_max_text l = Some x -> In x l.
Proof.
  induction l as [|y t IH]; cbn [sql_max_text]; [discriminate|].
  destruct (sql_max_text t) as [m|].
  - destruct (String.leb y m); intros H; injection H as <-;
      [right; apply IH; reflexivity | left; reflexivity].
  - intros H; injection H as <-; left; reflexivity.
Qed.

Lemma rw_last_activity_not_pos (dp : string -> jsnum) (d : db) (r : run) :
  js_gt (parseUtcTimestamp dp (Some (run_created_at r))) (Num 0) = false ->
  js_gt (parseUtcTimestamp dp (Some (run_updated_at r))) (Num 0) = false ->
  (forall s, In s (steps_of d (run_id r)) ->
     js_gt (parseUtcTimestamp dp (Some (step_updated_at s))) (Num 0) = false) ->
  js_gt (rw_last_activity dp (active_row_of d r)) (Num 0) = false.
Proof.
  intros Hc Hu Hs. unfold rw_last_activity, js_max3, active_row_of; cbn zeta;
    cbn [ar_created_at ar_run_updated_at ar_step_updated_at].
  apply js_max2_not_pos; [apply js_max2_not_pos; assumption|].
  destruct (sql_max_text (map step_updated_at (steps_of d (run_id r)))) as [m|] eqn:E;
    [|reflexivity].
  apply sql_max_text_in, in_map_iff in E as (s & <- & Hin). exact (Hs s Hin).
Qed.

(** C9: a running run none of whose timestamps parses to a positive time is
    never stale for either check, and [cleanup-stale] (run ids being unique)
    does not report it and leaves its run row and step rows as they were. *)
Theorem nonpositive_activity_never_stale (dp : string -> jsnum) (nowMs thr : Z) (d : db) (r : run)
    (Hc : js_gt (parseUtcTimestamp dp (Some (run_created_at r))) (Num 0) = false)
    (Hu : js_gt (parseUtcTimestamp dp (Some (run_updated_at r))) (Num 0) = false)
    (Hs : forall s, In s (steps_of d (run_id r)) ->
          js_gt (parseUtcTimestamp dp (Some (step_updated_at s))) (Num 0) = false) :
  rw_is_stale dp nowMs thr (active_row_of d r) = false
  /\ cleanup_classify dp nowMs thr d r = None
  /\ (forall wf dryRun ts d' l,
        NoDup (map run_id (runs d)) -> In r (runs d) ->
        cleanup_stale dp wf thr nowMs dryRun ts d = (d', l) ->
        ~ In (run_id r) (map se_id l)
        /\ Forall2 (fun x x' => run_id x = run_id r -> x' = x) (runs d) (runs d')
        /\ Forall2 (fun s s' => step_run_id s = run_id r -> s' = s) (steps d) (steps d')).
Proof.
  assert (Hrw : rw_is_stale dp nowMs thr (active_row_of d r) = false).
  { rewrite rw_is_stale_active_row, (rw_last_activity_not_pos dp d r Hc Hu Hs).
    rewrite andb_false_r. reflexivity. }
  assert (Hcl : cleanup_classify dp nowMs thr d r = None) by (apply cleanup_classify_none; exact Hrw).
  split; [exact Hrw|]. split; [exact Hcl|].
  intros wf dryRun ts d' l Hnd Hin H.
  assert (Hnot : ~ In (run_id r) (map se_id l)).
  { intros Hm. apply in_map_iff in Hm as (e & He & Hel).
    assert (Hl : In e (filter_some (cleanup_classify dp nowMs thr d) (cleanup_candidates wf d))).
    { unfold cleanup_stale in H.
      destruct (filter_some _ _); [injection H as _ <-; destruct Hel|].
      destruct dryRun; injection H as _ <-; exact Hel. }
    apply filter_some_in in Hl as (r' & Hr' & Hcr').
    assert (Hid := cleanup_classify_id _ _ _ _ _ _ Hcr').
    unfold cleanup_candidates in Hr'. apply sort_by_created_in, filter_In in Hr' as [Hr' _].
    assert (r' = r) as -> by (apply (nodup_map_inj run_id (runs d)); congruence).
    congruence. }
  split; [exact Hnot|].
  assert (Hids : stale_ids l (run_id r) = false).
  { unfold stale_ids. apply not_true_is_false. intros Hx. apply existsb_exists in Hx as (e & He & Hx).
    apply String.eqb_eq in Hx. apply Hnot. rewrite <- Hx. apply in_map. exact He. }
  assert (Hid2 : forall A (g : A -> string) (xs : list A),
            Forall2 (fun a b => g a = run_id r -> b = a) xs xs).
  { intros A g xs. induction xs; constructor; auto. }
  unfold cleanup_stale in H.
  destruct (filter_some _ _) as [|x t] eqn:E.
  - injection H as <- _. split; apply Hid2.
  - destruct dryRun.
    + injection H as <- _. split; apply Hid2.
    + injection H as Hd Hl. subst d' l.
      destruct (cleanup_fail_one_effect ts (x :: t) (fun _ => false) d d)
        as (H1 & H2 & _).
      * assert (Hm := Forall2_map_same (cleanup_run_rel (fun _ => false)) (fun x => x) (runs d)).
        rewrite map_id in Hm. apply Hm. intros y; reflexivity.
      * assert (Hm := Forall2_map_same (force_failed (fun _ => false)) (fun x => x) (steps d)).
        rewrite map_id in Hm. apply Hm. intros y; reflexivity.
      * reflexivity.
      * cbn zeta in H1, H2. split.
        -- eapply Forall2_impl; [|exact H1]. intros a b Hab Ha.
           unfold cleanup_run_rel in Hab. rewrite Ha, Hids in Hab. exact Hab.
        -- eapply Forall2_impl; [|exact H2]. intros a b Hab Ha.
           unfold force_failed in Hab. rewrite Ha, Hids in Hab. exact Hab.
Qed.

Lemma nonpositive_activity_never_stale_witness :
  js_gt (parseUtcTimestamp iso_date_parse (Some (run_created_at epoch_run))) (Num 0) = false
  /\ rw_is_stale iso_date_parse sample_now_ms sample_threshold_ms
       (active_row_of epoch_db epoch_run) = false
  /\ cleanup_classify iso_date_parse sample_now_ms sample_threshold_ms epoch_db epoch_run = None.
Proof.
  assert (Hc : js_gt (parseUtcTimestamp iso_date_parse (Some (run_created_at epoch_run))) (Num 0)
               = false) by (vm_compute; reflexivity).
  assert (Hu : js_gt (parseUtcTimestamp iso_date_parse (Some (run_updated_at epoch_run))) (Num 0)
               = false) by (vm_compute; reflexivity).
  assert (Hs : forall s, In s (steps_of epoch_db (run_id epoch_run)) ->
               js_gt (parseUtcTimestamp iso_date_parse (Some (step_updated_at s))) (Num 0) = false).
  { intros s Hin. vm_compute in Hin. destruct Hin as [<-|[]]. vm_compute. reflexivity. }
  destruct (nonpositive_activity_never_stale iso_date_parse sample_now_ms sample_threshold_ms
              epoch_db epoch_run Hc Hu Hs) as (H1 & H2 & _).
  split; [exact Hc | split; [exact H1 | exact H2]].
Defined.

(** ** C10 *)

Lemma js_char_lower_whitespace (c : ascii) :
  js_is_whitespace (js_char_lower c) = js_is_whitespace c.
Proof. destruct c as [[] [] [] [] [] [] [] []]; reflexivity. Qed.

Lemma js_char_lower_idem (c : ascii) : js_char_lower (js_char_lower c) = js_char_lower c.
Proof. destruct c as [[] [] [] [] [] [] [] []]; reflexivity. Qed.

Lemma js_to_lower_idem (s : string) : js_to_lower (js_to_lower s) = js_to_lower s.
Proof. induction s as [|c s IH]; cbn; [reflexivity|]. rewrite js_char_lower_idem, IH. reflexivity. Qed.

Lemma js_trim_start_lower (s : string) : js_trim_start (js_to_lower s) = js_to_lower (js_trim_start s).
Proof.
  induction s as [|c s IH]; cbn; [reflexivity|].
  rewrite js_char_lower_whitespace. destruct (js_is_whitespace c); [exact IH | reflexivity].
Qed.

Lemma js_trim_end_lower (s : string) : js_trim_end (js_to_lower s) = js_to_lower (js_trim_end s).
Proof.
  induction s as [|c s IH]; cbn; [reflexivity|].
  rewrite IH, js_char_lower_whitespace.
  destruct (js_trim_end s); cbn; [destruct (js_is_whitespace c)|]; reflexivity.
Qed.

Lemma js_trim_lower (s : string) : js_trim (js_to_lower s) = js_to_lower (js_trim s).
Proof. unfold js_trim. rewrite js_trim_start_lower, js_trim_end_lower. reflexivity. Qed.

Lemma js_trim_end_cons (c : ascii) (r : string) :
  js_trim_end (String c r)
  = match js_trim_end r with
    | EmptyString => if js_is_whitespace c then EmptyString else String c EmptyString
    | r' => String c r'
    end.
Proof. reflexivity. Qed.

Lemma js_trim_end_idem (s : string) : js_trim_end (js_trim_end s) = js_trim_end s.
Proof.
  induction s as [|c s IH]; [reflexivity|].
  rewrite (js_trim_end_cons c s).
  destruct (js_trim_end s) as [|c' s'] eqn:E.
  - destruct (js_is_whitespace c) eqn:W; cbn; [reflexivity|rewrite W; reflexivity].
  - rewrite js_trim_end_cons, IH. reflexivity.
Qed.

Lemma js_trim_start_idem (s : string) : js_trim_start (js_trim_start s) = js_trim_start s.
Proof.
  induction s as [|c s IH]; cbn; [reflexivity|].
  destruct (js_is_whitespace c) eqn:W; [exact IH | cbn; rewrite W; reflexivity].
Qed.

Lemma js_trim_start_of_trim_end (s : string) :
  js_trim_start s = s -> js_trim_start (js_trim_end s) = js_trim_end s.
Proof.
  destruct s as [|c s]; cbn; [reflexivity|].
  destruct (js_is_whitespace c) eqn:W.
  - intros H. exfalso.
    assert (Hl : forall t, String.length (js_trim_start t) <= String.length t).
    { induction t as [|a t IHt]; cbn; [lia|]. destruct (js_is_whitespace a); cbn; lia. }
    specialize (Hl s). rewrite H in Hl. cbn in Hl. lia.
  - intros _. destruct (js_trim_end s); cbn; rewrite W; reflexivity.
Qed.

Lemma js_trim_idem (s : string) : js_trim (js_trim s) = js_trim s.
Proof.
  unfold js_trim. rewrite js_trim_start_of_trim_end by apply js_trim_start_idem.
  apply js_trim_end_idem.
Qed.

Lemma find_first {A : Type} (f : A -> bool) (l : list A) (x : A) :
  find f l = Some x ->
  exists pre post, l = (pre ++ x :: post)%list /\ f x = true /\ forall y, In y pre -> f y = false.
Proof.
  induction l as [|a t IH]; cbn; [discriminate|].
  destruct (f a) eqn:E.
  - intros H; injection H as <-. exists [], t. cbn. repeat split; [exact E | tauto].
  - intros H. destruct (IH H) as (pre & post & -> & Hx & Hpre).
    exists (a :: pre), post. repeat split; [exact Hx|].
    intros y [<-|Hy]; [exact E | exact (Hpre y Hy)].
Qed.

Lemma find_none_iff {A : Type} (f : A -> bool) (l : list A) :
  find f l = None <-> forall y, In y l -> f y = false.
Proof.
  induction l as [|a t IH]; cbn; [tauto|].
  destruct (f a) eqn:E; split.
  - discriminate.
  - intros H. rewrite (H a (or_introl eq_refl)) in E. discriminate.
  - intros H y [<-|Hy]; [exact E | apply IH; assumption].
  - intros H. apply IH. intros y Hy. apply H. right; exact Hy.
Qed.

(** C10: [findRunByTaskTitle] (and its alias [readWorkflowRun]) returns the
    first stored record whose normalized title equals the normalized query,
    and [null] exactly when no record matches; [normalizeTitle] is
    idempotent. *)
Theorem findRunByTaskTitle_spec (records : list workflow_run_record) (q : string) :
  readWorkflowRun records q = findRunByTaskTitle records q
  /\ (forall r, findRunByTaskTitle records q = Some r ->
        exists pre post, records = (pre ++ r :: post)%list
          /\ normalizeTitle (wr_taskTitle r) = normalizeTitle q
          /\ forall y, In y pre -> normalizeTitle (wr_taskTitle y) <> normalizeTitle q)
  /\ (findRunByTaskTitle records q = None
      <-> forall y, In y records -> normalizeTitle (wr_taskTitle y) <> normalizeTitle q)
  /\ (forall x, normalizeTitle (normalizeTitle x) = normalizeTitle x).
Proof.
  split; [reflexivity|]. split; [|split].
  - intros r H. apply find_first in H as (pre & post & -> & Hr & Hpre).
    exists pre, post. split; [reflexivity|]. split; [apply String.eqb_eq; exact Hr|].
    intros y Hy Heq. apply String.eqb_eq in Heq. rewrite (Hpre y Hy) in Heq. discriminate.
  - unfold findRunByTaskTitle. cbn zeta. rewrite find_none_iff. split.
    + intros H y Hy Heq. apply String.eqb_eq in Heq. rewrite (H y Hy) in Heq. discriminate.
    + intros H y Hy. apply String.eqb_neq. exact (H y Hy).
  - intros x. unfold normalizeTitle.
    rewrite js_trim_lower, js_to_lower_idem, js_trim_idem. reflexivity.
Qed.

Lemma findRunByTaskTitle_spec_witness :
  findRunByTaskTitle sample_records "FIX bug" = Some (mkWorkflowRunRecord "b" "  fix BUG ")
  /\ exists pre post, sample_records = (pre ++ mkWorkflowRunRecord "b" "  fix BUG " :: post)%list.
Proof.
  assert (H : findRunByTaskTitle sample_records "FIX bug" = Some (mkWorkflowRunRecord "b" "  fix BUG "))
    by (vm_compute; reflexivity).
  split; [exact H|].
  destruct (proj1 (proj2 (findRunByTaskTitle_spec sample_records "FIX bug")) _ H)
    as (pre & post & E & _). exists pre, post. exact E.
Defined.

(** ** C6 *)

(** C6 (failing input): [r-busy] is a [running] run of [wf] that is not
    stale (a step of it is running), yet [runWorkflow] without
    [allowConcurrent] succeeds and inserts a new run: only the oldest
    [running] run ([r-idle], stale) is looked at, and it is force-failed. *)
Theorem concurrency_guard_misses_newer_run :
  In busy_run (runs two_runs_db)
  /\ run_workflow_id busy_run = wf_id sample_workflow
  /\ run_status busy_run = "running"
  /\ rw_is_stale iso_date_parse sample_now_ms sample_threshold_ms
       (active_row_of two_runs_db busy_run) = false
  /\ fst (runWorkflow iso_date_parse (sample_host true) sample_workflow "task" None false two_runs_db)
     = RwOk "r-new" "wf" "task" "running"
  /\ run_status_of "r-new"
       (snd (runWorkflow iso_date_parse (sample_host true) sample_workflow "task" None false
               two_runs_db)) = Some "running"
  /\ run_status_of "r-busy"
       (snd (runWorkflow iso_date_parse (sample_host true) sample_workflow "task" None false
               two_runs_db)) = Some "running".
Proof. vm_compute. repeat split; left; reflexivity. Qed.

(** What does hold: with [allowConcurrent] the guard is skipped, and when the
    oldest [running] run of the workflow is not stale the call fails with no
    row written. *)
Lemma concurrency_guard_oldest (dp : string -> jsnum) (h : rw_host) (wf : workflow)
    (title : string) (nu : option string) (d : db) :
  concurrency_guard dp h wf true d = inl d
  /\ (forall r, active_run wf d = Some r ->
        rw_is_stale dp (h_now_ms h) (h_threshold_ms h) (active_row_of d r) = false ->
        exists msg, runWorkflow dp h wf title nu false d = (RwErr msg, d)).
Proof.
  split; [reflexivity|].
  intros r Ha Hs. unfold runWorkflow, concurrency_guard. rewrite Ha.
  fold (active_row_of d r). rewrite Hs. eexists. reflexivity.
Qed.

(** ** C7 *)

(** C7: when [ensureWorkflowCrons] fails after the insert, [runWorkflow]
    raises an error and the new run row is in the store with status
    [failed] (as is any row with that id); a successful call implies the
    crons were armed, so no call leaves its run [running] unscheduled. *)
Theorem runWorkflow_cron_failure (dp : string -> jsnum) (h : rw_host) (wf : workflow)
    (title : string) (nu : option string) (ac : bool) (d : db) :
  (h_crons_ok h = false -> forall d1, concurrency_guard dp h wf ac d = inl d1 ->
     (exists msg, fst (runWorkflow dp h wf title nu ac d) = RwErr msg)
     /\ (exists x, In x (runs (snd (runWorkflow dp h wf title nu ac d)))
                   /\ run_id x = h_run_uuid h /\ run_task x = title
                   /\ run_status x = "failed")
     /\ (forall x, In x (runs (snd (runWorkflow dp h wf title nu ac d))) ->
           run_id x = h_run_uuid h -> run_status x = "failed"))
  /\ (forall id w t st, fst (runWorkflow dp h wf title nu ac d) = RwOk id w t st ->
        h_crons_ok h = true).
Proof.
  split.
  - intros Hc d1 Hg. unfold runWorkflow. rewrite Hg, Hc. cbn [fst snd runs].
    split; [eexists; reflexivity|]. split.
    + eexists. split.
      * apply in_map_iff. eexists. split; [reflexivity|].
        unfold insert_run_and_steps. cbn [runs]. apply in_or_app. right. left. reflexivity.
      * cbn. rewrite String.eqb_refl. cbn. repeat split.
    + intros x Hx Hid. apply in_map_iff in Hx as (y & <- & _).
      destruct (run_id y =? h_run_uuid h) eqn:E; [reflexivity|].
      rewrite Hid, String.eqb_refl in E. discriminate.
  - intros id w t st. unfold runWorkflow.
    destruct (concurrency_guard dp h wf ac d); [|discriminate].
    destruct (h_crons_ok h); [reflexivity | discriminate].
Qed.

Lemma runWorkflow_cron_failure_witness :
  run_status_of "r-new"
    (snd (runWorkflow iso_date_parse (sample_host false) sample_workflow "task" None true idle_db))
  = Some "failed"
  /\ exists msg, fst (runWorkflow iso_date_parse (sample_host false) sample_workflow "task" None
                       true idle_db) = RwErr msg.
Proof.
  split; [vm_compute; reflexivity|].
  destruct (proj1 (runWorkflow_cron_failure iso_date_parse (sample_host false) sample_workflow
                     "task" None true idle_db) eq_refl idle_db eq_refl) as (H & _).
  exact H.
Defined.

(** ** C8 *)

Lemma mk_steps_length (h : rw_host) (wf : workflow) (rid now : string) (ws : list wf_step) :
  forall i, List.length (mk_steps h wf rid now ws i) = List.length ws.
Proof. induction ws as [|w t IH]; intros i; cbn; [reflexivity | rewrite IH; reflexivity]. Qed.

Lemma mk_steps_nth (h : rw_host) (wf : workflow) (rid now : string) (ws : list wf_step) :
  forall i k s, nth_error (mk_steps h wf rid now ws i) k = Some s ->
  step_run_id s = rid /\ step_index s = (i + k)%nat
  /\ step_status s = (if Nat.eqb (i + k) 0 then "pending" else "waiting")
  /\ exists w, nth_error ws k = Some w /\ step_id s = ws_id w.
Proof.
  induction ws as [|w t IH]; intros i k s; cbn [mk_steps]; [destruct k; discriminate|].
  destruct k as [|k]; cbn [nth_error].
  - intros H; injection H as <-. cbn. rewrite Nat.add_0_r.
    repeat split. exists w. split; reflexivity.
  - intros H. destruct (IH (S i) k s H) as (H1 & H2 & H3 & H4).
    rewrite <- plus_n_Sm. repeat split; assumption.
Qed.

(** C8: a successful [runWorkflow] appends to the store (after the
    concurrency guard) one run row with the new id and status [running],
    and one step row per spec step: the [k]-th has [step_index = k], the
    [k]-th spec step's id, the new run id, and status [pending] for [k = 0]
    and [waiting] otherwise. *)
Theorem runWorkflow_initial_rows (dp : string -> jsnum) (h : rw_host) (wf : workflow)
    (title : string) (nu : option string) (ac : bool) (d d' : db) (id w t st : string)
    (H : runWorkflow dp h wf title nu ac d = (RwOk id w t st, d')) :
  exists d1 r news,
    concurrency_guard dp h wf ac d = inl d1
    /\ runs d' = (runs d1 ++ [r])%list
    /\ run_id r = h_run_uuid h /\ id = run_id r /\ run_task r = title
    /\ run_status r = "running" /\ st = "running"
    /\ steps d' = (steps d1 ++ news)%list
    /\ List.length news = List.length (wf_steps wf)
    /\ forall k s, nth_error news k = Some s ->
         step_run_id s = h_run_uuid h /\ step_index s = k
         /\ step_status s = (if Nat.eqb k 0 then "pending" else "waiting")
         /\ exists ws, nth_error (wf_steps wf) k = Some ws /\ step_id s = ws_id ws.
Proof.
  unfold runWorkflow in H.
  destruct (concurrency_guard dp h wf ac d) as [d1|msg] eqn:Hg; [|discriminate].
  destruct (h_crons_ok h); [|discriminate].
  injection H as <- <- <- <- <-.
  eexists d1, _, _. split; [reflexivity|].
  unfold insert_run_and_steps. cbn [runs steps].
  split; [reflexivity|].
  do 5 (split; [reflexivity|]).
  split; [reflexivity|]. split; [apply mk_steps_length|].
  intros k s Hk. exact (mk_steps_nth h wf _ _ _ 0 k s Hk).
Qed.

Lemma runWorkflow_initial_rows_witness :
  exists d1, concurrency_guard iso_date_parse (sample_host true) sample_workflow false idle_db = inl d1
    /\ List.length (steps (snd (runWorkflow iso_date_parse (sample_host true) sample_workflow
                                 "task" None false idle_db)))
       = (List.length (steps d1) + 3)%nat.
Proof.
  destruct (runWorkflow_initial_rows iso_date_parse (sample_host true) sample_workflow "task" None
              false idle_db
              (snd (runWorkflow iso_date_parse (sample_host true) sample_workflow "task" None
                      false idle_db))
              "r-new" "wf" "task" "running" (ltac:(vm_compute; reflexivity)))
    as (d1 & r & news & Hg & _ & _ & _ & _ & _ & _ & Hs & Hl & _).
  exists d1. split; [exact Hg|].
  rewrite Hs, length_app, Hl. reflexivity.
Defined.

(** * Further properties of the code *)

(** ** Crons of a workflow *)

Lemma str_app_assoc (a b c : string) : ((a ++ b) ++ c) = (a ++ (b ++ c)).
Proof. induction a as [|x a IH]; cbn; [reflexivity | rewrite IH; reflexivity]. Qed.

Lemma prefix_app (s t : string) : prefix s (s ++ t) = true.
Proof.
  induction s as [|a s IH]; cbn; [destruct t; reflexivity|].
  destruct (ascii_dec a a); [exact IH | contradiction].
Qed.

Lemma driver_name_prefix (w : string) : prefix (cron_prefix w) ("antfarm/" ++ w ++ "/driver") = true.
Proof.
  replace ("antfarm/" ++ w ++ "/driver") with (cron_prefix w ++ "driver").
  - apply prefix_app.
  - unfold cron_prefix. rewrite !str_app_assoc. reflexivity.
Qed.

Lemma deleteCronJob_in (g : gateway) (st : list cron_job) (x : string) (k : cron_job) :
  In k (deleteCronJob g st x) <-> In k st /\ ~ (g_delete_ok g x = true /\ cj_id k = x).
Proof.
  unfold deleteCronJob. destruct (g_delete_ok g x) eqn:E.
  - rewrite filter_In, negb_true_iff, String.eqb_neq. intuition.
  - intuition discriminate.
Qed.

(** What survives the delete loop of [deleteAgentCronJobs]. *)
Lemma delete_loop_in (g : gateway) (p : string) (js : list cron_job) :
  forall st k,
  In k (fold_left (fun st j => if prefix p (cj_name j) then deleteCronJob g st (cj_id j) else st)
                  js st)
  <-> In k st /\ ~ (exists j, In j js /\ prefix p (cj_name j) = true
                             /\ g_delete_ok g (cj_id j) = true /\ cj_id k = cj_id j).
Proof.
  induction js as [|j t IH]; intros st k; cbn [fold_left].
  - split; [intros H; split; [exact H|] | tauto]. intros (j & [] & _).
  - rewrite IH. destruct (prefix p (cj_name j)) eqn:P.
    + rewrite deleteCronJob_in. split.
      * intros ((Hk & Hn1) & Hn2). split; [exact Hk|].
        intros (j' & [<-|Hj'] & Hp & Hd & Hid); [tauto|]. apply Hn2. eauto 6.
      * intros (Hk & Hn). split; [split; [exact Hk|]|].
        -- intros (Hd & Hid). apply Hn. exists j. split; [left; reflexivity|]. auto.
        -- intros (j' & Hj' & Hp & Hd & Hid). apply Hn. exists j'. split; [right; exact Hj'|]. auto.
    + split.
      * intros (Hk & Hn). split; [exact Hk|].
        intros (j' & [<-|Hj'] & Hp & Hd & Hid); [congruence|]. apply Hn. eauto 6.
      * intros (Hk & Hn). split; [exact Hk|].
        intros (j' & Hj' & Hp & Hd & Hid). apply Hn. exists j'. split; [right; exact Hj'|]. auto.
Qed.

Lemma teardown_in (g : gateway) (d : db) (w : string) (jobs : list cron_job) (k : cron_job) :
  In k (teardownWorkflowCronsIfIdle g d w jobs)
  <-> In k jobs /\ ~ (countActiveRuns d w = O /\ g_list_ok g = true
                      /\ exists j, In j jobs /\ prefix (cron_prefix w) (cj_name j) = true
                                   /\ g_delete_ok g (cj_id j) = true /\ cj_id k = cj_id j).
Proof.
  unfold teardownWorkflowCronsIfIdle, removeAgentCrons, deleteAgentCronJobs, listCronJobs.
  destruct (Nat.ltb 0 (countActiveRuns d w)) eqn:A.
  - apply Nat.ltb_lt in A. split; [intros Hk; split; [exact Hk|] | tauto]. intros (E & _). lia.
  - apply Nat.ltb_ge in A. destruct (g_list_ok g).
    + rewrite delete_loop_in. split.
      * intros (Hk & Hn). split; [exact Hk|]. intros (_ & _ & Hx). exact (Hn Hx).
      * intros (Hk & Hn). split; [exact Hk|]. intros Hx. apply Hn. split; [lia|]. auto.
    + split; [intros Hk; split; [exact Hk|] | tauto]. intros (_ & E & _). discriminate.
Qed.

(** X1: [teardownWorkflowCronsIfIdle] never adds a job and leaves the jobs
    as they were while the workflow has a running run, or when listing
    fails; a job whose name lacks the workflow's prefix [antfarm/<id>/] is
    never removed (job ids being unique). *)
Theorem teardown_keeps_other_crons (g : gateway) (d : db) (w : string) (jobs : list cron_job) :
  incl (teardownWorkflowCronsIfIdle g d w jobs) jobs
  /\ ((0 < countActiveRuns d w)%nat -> teardownWorkflowCronsIfIdle g d w jobs = jobs)
  /\ (g_list_ok g = false -> teardownWorkflowCronsIfIdle g d w jobs = jobs)
  /\ (NoDup (map cj_id jobs) -> forall k, In k jobs -> prefix (cron_prefix w) (cj_name k) = false ->
      In k (teardownWorkflowCronsIfIdle g d w jobs)).
Proof.
  split; [intros k Hk; apply teardown_in in Hk; tauto|].
  split; [intros H; unfold teardownWorkflowCronsIfIdle; apply Nat.ltb_lt in H; rewrite H; reflexivity|].
  split.
  - intros H. unfold teardownWorkflowCronsIfIdle, removeAgentCrons, deleteAgentCronJobs, listCronJobs.
    rewrite H. destruct (Nat.ltb 0 _); reflexivity.
  - intros Hnd k Hk Hp. apply teardown_in. split; [exact Hk|].
    intros (_ & _ & j & Hj & Hpj & _ & Hid).
    assert (k = j) as -> by (apply (nodup_map_inj cj_id jobs); assumption).
    congruence.
Qed.

(** X2: when the workflow has no running run, listing succeeds and the
    deletes succeed, [teardownWorkflowCronsIfIdle] leaves no job whose name
    starts with [antfarm/<id>/]. *)
Theorem teardown_idle_clears (g : gateway) (d : db) (w : string) (jobs : list cron_job)
    (Hidle : countActiveRuns d w = O) (Hl : g_list_ok g = true)
    (Hdel : forall j, In j jobs -> prefix (cron_prefix w) (cj_name j) = true ->
            g_delete_ok g (cj_id j) = true) :
  forall k, In k (teardownWorkflowCronsIfIdle g d w jobs) -> prefix (cron_prefix w) (cj_name k) = false.
Proof.
  intros k Hk. apply teardown_in in Hk as (Hk & Hn).
  destruct (prefix (cron_prefix w) (cj_name k)) eqn:P; [|reflexivity].
  exfalso. apply Hn. split; [exact Hidle|]. split; [exact Hl|].
  exists k. auto.
Qed.

Lemma setupAgentCrons_ok (g : gateway) (wf : cron_workflow) (jobs jobs' : list cron_job) :
  setupAgentCrons g wf jobs = inl jobs' ->
  exists id a0 rest, cw_agents wf = a0 :: rest /\ g_create g = inl id
    /\ jobs' = (jobs ++ [mkCronJob id ("antfarm/" ++ cw_id wf ++ "/driver") (cw_id wf ++ "_" ++ a0)
                   (match cw_interval_ms wf with Some n => n | None => DEFAULT_EVERY_MS end)
                   (match cw_polling_model wf with
                    | Some m => if negb (m =? EmptyString) && negb (m =? "default")
                                then Some m else None
                    | None => None end)
                   (match cw_polling_timeout wf with
                    | Some t => t | None => DEFAULT_POLLING_TIMEOUT_SECONDS end) true])%list.
Proof.
  unfold setupAgentCrons. destruct (cw_agents wf) as [|a0 rest]; [discriminate|].
  destruct (g_create g) as [id|err]; [|discriminate].
  intros H; injection H as <-. exists id, a0, rest. split; [reflexivity|]. split; [reflexivity|].
  destruct (cw_polling_model wf); reflexivity.
Qed.

Lemma crons_exist_app_driver (g : gateway) (w : string) (jobs : list cron_job) (j : cron_job) :
  g_list_ok g = true -> cj_name j = "antfarm/" ++ w ++ "/driver" ->
  workflowCronsExist g (jobs ++ [j])%list w = true.
Proof.
  intros Hl Hn. unfold workflowCronsExist, listCronJobs. rewrite Hl.
  apply existsb_exists. exists j. split; [apply in_or_app; right; left; reflexivity|].
  rewrite Hn. apply driver_name_prefix.
Qed.

(** X3: a successful [ensureWorkflowCrons] either leaves the jobs as they
    were (crons of the workflow are listed already) or appends exactly one
    job: [antfarm/<id>/driver], for agent [<id>_<first agent>], every
    [cron.interval_ms] ms (300000 by default), an isolated turn with the
    polling timeout (120 s by default) and a model only when the polling
    model is set and is not [default]; once listing works, a second call
    changes nothing. *)
Theorem ensure_crons_effect (g : gateway) (wf : cron_workflow) (jobs jobs' : list cron_job)
    (H : ensureWorkflowCrons g wf jobs = inl jobs') :
  (jobs' = jobs
   \/ exists id a0 rest, cw_agents wf = a0 :: rest /\ g_create g = inl id
      /\ jobs' = (jobs ++ [mkCronJob id ("antfarm/" ++ cw_id wf ++ "/driver") (cw_id wf ++ "_" ++ a0)
                     (match cw_interval_ms wf with Some n => n | None => DEFAULT_EVERY_MS end)
                     (match cw_polling_model wf with
                      | Some m => if negb (m =? EmptyString) && negb (m =? "default")
                                  then Some m else None
                      | None => None end)
                     (match cw_polling_timeout wf with
                      | Some t => t | None => DEFAULT_POLLING_TIMEOUT_SECONDS end) true])%list)
  /\ (g_list_ok g = true ->
      workflowCronsExist g jobs' (cw_id wf) = true /\ ensureWorkflowCrons g wf jobs' = inl jobs').
Proof.
  unfold ensureWorkflowCrons in H.
  destruct (workflowCronsExist g jobs (cw_id wf)) eqn:Ex.
  - injection H as <-. split; [left; reflexivity|].
    intros _. unfold ensureWorkflowCrons. rewrite Ex. split; reflexivity.
  - destruct (g_preflight g) as [err|]; [discriminate|].
    destruct (setupAgentCrons_ok g wf jobs jobs' H) as (id & a0 & rest & Ha & Hc & ->).
    split; [right; exists id, a0, rest; auto|].
    intros Hl. assert (E : workflowCronsExist g
      (jobs ++ [mkCronJob id ("antfarm/" ++ cw_id wf ++ "/driver") (cw_id wf ++ "_" ++ a0)
                 (match cw_interval_ms wf with Some n => n | None => DEFAULT_EVERY_MS end)
                 (match cw_polling_model wf with
                  | Some m => if negb (m =? EmptyString) && negb (m =? "default")
                              then Some m else None
                  | None => None end)
                 (match cw_polling_timeout wf with
                  | Some t => t | None => DEFAULT_POLLING_TIMEOUT_SECONDS end) true])%list
      (cw_id wf) = true) by (apply crons_exist_app_driver; [exact Hl | reflexivity]).
    split; [exact E|]. unfold ensureWorkflowCrons. rewrite E. reflexivity.
Qed.

(** X4: when no crons of the workflow are listed, [ensureWorkflowCrons]
    fails with the preflight error if the cron tool is unreachable, and
    otherwise fails when the workflow has no agents or the driver job cannot
    be created. *)
Theorem ensure_crons_errors (g : gateway) (wf : cron_workflow) (jobs : list cron_job)
    (Hno : workflowCronsExist g jobs (cw_id wf) = false) :
  (forall err, g_preflight g = Some err -> ensureWorkflowCrons g wf jobs = inr err)
  /\ (g_preflight g = None -> cw_agents wf = [] ->
      ensureWorkflowCrons g wf jobs
      = inr ("Workflow " ++ dquote ++ cw_id wf ++ dquote ++ " has no agents to schedule."))
  /\ (g_preflight g = None -> forall err, g_create g = inr err -> cw_agents wf <> [] ->
      ensureWorkflowCrons g wf jobs
      = inr ("Failed to create workflow driver cron for " ++ dquote ++ cw_id wf ++ dquote
             ++ ": " ++ err)).
Proof.
  unfold ensureWorkflowCrons. rewrite Hno.
  split; [intros err E; rewrite E; reflexivity|].
  split; [intros E A; rewrite E; unfold setupAgentCrons; rewrite A; reflexivity|].
  intros E err C A. rewrite E. unfold setupAgentCrons.
  destruct (cw_agents wf); [contradiction|]. rewrite C. reflexivity.
Qed.

(** X5: when listing the jobs fails, [ensureWorkflowCrons] does not see the
    workflow's existing driver and creates another one: two calls leave two
    jobs named [antfarm/<id>/driver]. *)
Theorem ensure_crons_list_failure_duplicates (g : gateway) (wf : cron_workflow)
    (jobs : list cron_job) (id a0 : string) (rest : list string)
    (Hl : g_list_ok g = false) (Hp : g_preflight g = None)
    (Ha : cw_agents wf = a0 :: rest) (Hc : g_create g = inl id) :
  exists drv, cj_name drv = "antfarm/" ++ cw_id wf ++ "/driver"
    /\ ensureWorkflowCrons g wf jobs = inl (jobs ++ [drv])%list
    /\ ensureWorkflowCrons g wf (jobs ++ [drv])%list = inl (jobs ++ [drv; drv])%list.
Proof.
  unfold ensureWorkflowCrons, workflowCronsExist, listCronJobs. rewrite Hl, Hp.
  unfold setupAgentCrons. rewrite Ha, Hc.
  eexists. split; [| split; [reflexivity | rewrite <- app_assoc; reflexivity]].
  reflexivity.
Qed.

Lemma filter_fresh_id (jobs : list cron_job) (id : string) :
  (forall j, In j jobs -> cj_id j <> id) -> filter (fun j => negb (cj_id j =? id)) jobs = jobs.
Proof.
  induction jobs as [|j t IH]; intros H; cbn; [reflexivity|].
  assert (Hne : cj_id j <> id) by (apply H; left; reflexivity).
  apply String.eqb_neq in Hne. rewrite Hne. cbn. f_equal. apply IH.
  intros j' Hj'. apply H. right; exact Hj'.
Qed.

(** X6: starting the crons of a workflow that has none and tearing them down
    once it is idle gives back exactly the jobs of before, when the gateway
    lists, creates a job with a fresh id and deletes. *)
Theorem ensure_then_teardown (g : gateway) (wf : cron_workflow) (d : db)
    (jobs jobs' : list cron_job)
    (Hl : g_list_ok g = true)
    (Hfree : forall j, In j jobs -> prefix (cron_prefix (cw_id wf)) (cj_name j) = false)
    (Hfresh : forall id, g_create g = inl id -> forall j, In j jobs -> cj_id j <> id)
    (Hdel : forall id, g_create g = inl id -> g_delete_ok g id = true)
    (Hidle : countActiveRuns d (cw_id wf) = O)
    (He : ensureWorkflowCrons g wf jobs = inl jobs') :
  teardownWorkflowCronsIfIdle g d (cw_id wf) jobs' = jobs.
Proof.
  assert (Hno : workflowCronsExist g jobs (cw_id wf) = false).
  { unfold workflowCronsExist, listCronJobs. rewrite Hl.
    apply not_true_is_false. intros E. apply existsb_exists in E as (j & Hj & Hp).
    rewrite (Hfree j Hj) in Hp. discriminate. }
  unfold ensureWorkflowCrons in He. rewrite Hno in He.
  destruct (g_preflight g); [discriminate|].
  destruct (setupAgentCrons_ok g wf jobs jobs' He) as (id & a0 & rest & _ & Hc & ->).
  unfold teardownWorkflowCronsIfIdle. rewrite Hidle. cbn [Nat.ltb Nat.leb].
  unfold removeAgentCrons, deleteAgentCronJobs, listCronJobs. rewrite Hl.
  rewrite fold_left_app.
  assert (Hskip : forall l st, (forall j, In j l -> In j jobs) ->
    fold_left (fun st j => if prefix (cron_prefix (cw_id wf)) (cj_name j)
                           then deleteCronJob g st (cj_id j) else st) l st = st).
  { induction l as [|j l IH]; intros st Hl'; cbn [fold_left]; [reflexivity|].
    rewrite (Hfree j (Hl' j (or_introl eq_refl))). apply IH. intros; apply Hl'; right; assumption. }
  rewrite (Hskip jobs) by (intros; assumption).
  cbn [fold_left cj_name cj_id]. rewrite driver_name_prefix.
  unfold deleteCronJob. rewrite (Hdel id Hc).
  rewrite filter_app. cbn. rewrite String.eqb_refl. cbn. rewrite app_nil_r.
  apply filter_fresh_id. exact (Hfresh id Hc).
Qed.

(** ** Cron teardown of [cleanup-stale] *)

Lemma set_add_in (x y : string) (s : list string) : In x (set_add y s) <-> x = y \/ In x s.
Proof.
  unfold set_add. destruct (existsb (String.eqb y) s) eqn:E.
  - apply existsb_exists in E as (z & Hz & Ez). apply String.eqb_eq in Ez. subst z.
    split; [tauto|]. intros [->|H]; assumption.
  - rewrite in_app_iff. cbn. intuition.
Qed.

Lemma cleaned_workflows_in_gen (l : list stale_entry) : forall acc x,
  In x (fold_left (fun acc e => set_add (se_workflow_id e) acc) l acc)
  <-> In x acc \/ exists e, In e l /\ se_workflow_id e = x.
Proof.
  induction l as [|e t IH]; intros acc x; cbn [fold_left].
  - split; [tauto|]. intros [H|(e & [] & _)]; exact H.
  - rewrite IH, set_add_in. split.
    + intros [[->|H]|(e' & He' & E)].
      * right. exists e. split; [left|]; reflexivity.
      * left. exact H.
      * right. exists e'. split; [right; exact He' | exact E].
    + intros [H|(e' & [<-|He'] & E)].
      * left. right. exact H.
      * left. left. symmetry. exact E.
      * right. exists e'. split; assumption.
Qed.

Lemma cleaned_workflows_in (l : list stale_entry) (e : stale_entry) :
  In e l -> In (se_workflow_id e) (cleaned_workflows l).
Proof.
  intros He. unfold cleaned_workflows. apply cleaned_workflows_in_gen. right. eauto.
Qed.

Lemma teardown_all_incl (g : gateway) (d : db) (ws : list string) :
  forall jobs, incl (teardown_all g d ws jobs) jobs.
Proof.
  unfold teardown_all. induction ws as [|w t IH]; intros jobs; cbn [fold_left].
  - apply incl_refl.
  - eapply incl_tran; [apply IH|]. intros k Hk. apply teardown_in in Hk. tauto.
Qed.

Lemma teardown_all_keeps (g : gateway) (d : db) (ws : list string) (k : cron_job) :
  forall jobs, In k jobs ->
  (forall j, In j jobs -> cj_id j = cj_id k -> forall w, In w ws ->
   prefix (cron_prefix w) (cj_name j) = false) ->
  In k (teardown_all g d ws jobs).
Proof.
  unfold teardown_all. induction ws as [|w t IH]; intros jobs Hk Hu; cbn [fold_left]; [exact Hk|].
  apply IH.
  - apply teardown_in. split; [exact Hk|]. intros (_ & _ & j & Hj & Hp & _ & Hid).
    rewrite (Hu j Hj (eq_sym Hid) w (or_introl eq_refl)) in Hp. discriminate.
  - intros j Hj Hid w' Hw'. apply teardown_in in Hj as (Hj & _).
    exact (Hu j Hj Hid w' (or_intror Hw')).
Qed.

Lemma teardown_all_clears (g : gateway) (d : db) (ws : list string) (w : string) :
  g_list_ok g = true -> In w ws -> countActiveRuns d w = O ->
  forall jobs, (forall j, In j jobs -> g_delete_ok g (cj_id j) = true) ->
  forall k, In k (teardown_all g d ws jobs) -> prefix (cron_prefix w) (cj_name k) = false.
Proof.
  intros Hl Hw Hidle. unfold teardown_all.
  induction ws as [|w' t IH]; intros jobs Hdel k Hk; cbn [fold_left] in Hk; [destruct Hw|].
  destruct Hw as [<-|Hw].
  - apply (teardown_all_incl g d t) in Hk. apply teardown_in in Hk as (Hk & Hn).
    destruct (prefix (cron_prefix w') (cj_name k)) eqn:P; [|reflexivity].
    exfalso. apply Hn. split; [exact Hidle|]. split; [exact Hl|]. exists k. auto.
  - apply (IH Hw (teardownWorkflowCronsIfIdle g d w' jobs)); [|exact Hk].
    intros j Hj. apply teardown_in in Hj as (Hj & _). exact (Hdel j Hj).
Qed.

(** X7: [cleanup-stale] changes no cron on a dry run; otherwise it only
    removes jobs: every workflow that lost a stale run and has no running
    run left in the store afterwards has no job [antfarm/<id>/...] any more
    (listing and deletes succeeding), and a job is kept when its name lacks
    the prefix of every workflow that lost a run (job ids being unique). *)
Theorem cleanup_stale_cron_teardown (dp : string -> jsnum) (g : gateway)
    (workflowId : option string) (thresholdMs nowMs : Z) (dryRun : bool) (ts : string)
    (d d' : db) (l : list stale_entry) (jobs jobs' : list cron_job)
    (H : cleanup_stale_with_crons dp g workflowId thresholdMs nowMs dryRun ts d jobs = (d', l, jobs')) :
  (dryRun = true -> jobs' = jobs)
  /\ incl jobs' jobs
  /\ (dryRun = false -> g_list_ok g = true ->
      (forall j, In j jobs -> g_delete_ok g (cj_id j) = true) ->
      forall e, In e l -> countActiveRuns d' (se_workflow_id e) = O ->
      forall k, In k jobs' -> prefix (cron_prefix (se_workflow_id e)) (cj_name k) = false)
  /\ (NoDup (map cj_id jobs) -> forall k, In k jobs ->
      (forall e, In e l -> prefix (cron_prefix (se_workflow_id e)) (cj_name k) = false) ->
      In k jobs').
Proof.
  unfold cleanup_stale_with_crons in H.
  destruct (cleanup_stale dp workflowId thresholdMs nowMs dryRun ts d) as [d0 l0].
  destruct dryRun.
  - injection H as <- <- <-. split; [reflexivity|]. split; [apply incl_refl|].
    split; [discriminate|]. intros _ k Hk _. exact Hk.
  - injection H as <- <- <-. split; [discriminate|].
    split; [apply teardown_all_incl|]. split.
    + intros _ Hl Hdel e He Hidle k Hk.
      exact (teardown_all_clears g d0 _ _ Hl (cleaned_workflows_in l0 e He) Hidle jobs Hdel k Hk).
    + intros Hnd k Hk Hp. apply teardown_all_keeps; [exact Hk|].
      intros j Hj Hid w Hw.
      assert (j = k) as -> by (apply (nodup_map_inj cj_id jobs); assumption).
      unfold cleaned_workflows in Hw. apply cleaned_workflows_in_gen in Hw as [[]|(e & He & <-)].
      exact (Hp e He).
Qed.

(** ** [forceWorkflowWakeModeNow] *)

Lemma wake_now_loop_changed (p : string) (js : list wake_job) :
  snd (wake_now_loop p js) = existsb (wake_needed p) js.
Proof.
  induction js as [|j t IH]; cbn; [reflexivity|].
  destruct (wake_now_loop p t) as [t' c]. cbn in IH. subst c. unfold wake_needed.
  destruct (prefix p _); cbn; [|reflexivity].
  destruct (match wj_wake j with Some w => w =? "now" | None => false end); reflexivity.
Qed.


Lemma wake_now_loop_rel (p : string) (js : list wake_job) :
  Forall2 (wake_step_rel p) js (fst (wake_now_loop p js)).
Proof.
  induction js as [|j t IH]; cbn; [constructor|].
  destruct (wake_now_loop p t) as [t' c]. cbn in IH.
  destruct (prefix p _) eqn:P; cbn.
  - destruct (match wj_wake j with Some w => w =? "now" | None => false end) eqn:W; cbn;
      constructor; try exact IH; unfold wake_step_rel, wake_needed; rewrite P, W; reflexivity.
  - constructor; [|exact IH]. unfold wake_step_rel, wake_needed. rewrite P. reflexivity.
Qed.

Lemma wake_step_rel_done (p : string) (j j' : wake_job) :
  wake_step_rel p j j' -> wake_needed p j' = false.
Proof.
  unfold wake_step_rel. destruct (wake_needed p j) eqn:E; intros ->; [|exact E].
  unfold wake_needed. cbn. rewrite andb_false_iff. right. reflexivity.
Qed.

Lemma Forall2_in_r {A B : Type} (R : A -> B -> Prop) (l : list A) (l' : list B) (y : B) :
  Forall2 R l l' -> In y l' -> exists x, In x l /\ R x y.
Proof.
  intros H. induction H as [|x y' l l' Hxy _ IH]; intros Hy; [destruct Hy|].
  destruct Hy as [<-|Hy]; [exists x; split; [left; reflexivity | exact Hxy]|].
  destruct (IH Hy) as (x' & Hx' & Hr). exists x'. split; [right; exact Hx' | exact Hr].
Qed.

(** X8: [forceWorkflowWakeModeNow] writes the file back exactly when some
    job named [antfarm/<id>/...] has a [wakeMode] other than [now]; the jobs
    it writes are those read, in order, with that [wakeMode] set to [now]
    and nothing else changed, and a second call on them writes nothing. *)
Theorem force_wake_mode_now (w : string) (js : list wake_job) :
  (forceWorkflowWakeModeNow w (Some (Some js)) = None
   <-> forall j, In j js -> wake_needed (cron_prefix w) j = false)
  /\ (forall js', forceWorkflowWakeModeNow w (Some (Some js)) = Some js' ->
      Forall2 (wake_step_rel (cron_prefix w)) js js'
      /\ forceWorkflowWakeModeNow w (Some (Some js')) = None).
Proof.
  unfold forceWorkflowWakeModeNow.
  pose proof (wake_now_loop_changed (cron_prefix w) js) as Hc.
  pose proof (wake_now_loop_rel (cron_prefix w) js) as Hr.
  destruct (wake_now_loop (cron_prefix w) js) as [js1 c]. cbn [fst snd] in Hc, Hr. subst c.
  split.
  - destruct (existsb (wake_needed (cron_prefix w)) js) eqn:E.
    + split; [intros Hs; discriminate Hs|]. intros Hall. apply existsb_exists in E as (j & Hj & Hn).
      rewrite (Hall j Hj) in Hn. discriminate.
    + split; [intros _|reflexivity]. intros j Hj.
      apply not_true_is_false. intros Hn.
      assert (existsb (wake_needed (cron_prefix w)) js = true) by (apply existsb_exists; eauto).
      congruence.
  - intros js'. destruct (existsb (wake_needed (cron_prefix w)) js); [|intros Hs; discriminate Hs].
    intros Hs; injection Hs as <-. split; [exact Hr|].
    pose proof (wake_now_loop_changed (cron_prefix w) js1) as Hc2.
    pose proof (wake_now_loop_rel (cron_prefix w) js1) as _.
    destruct (wake_now_loop (cron_prefix w) js1) as [js2 c2]. cbn [fst snd] in Hc2. subst c2.
    replace (existsb (wake_needed (cron_prefix w)) js1) with false; [reflexivity|].
    symmetry. apply not_true_is_false. intros E. apply existsb_exists in E as (j' & Hj' & Hn).
    destruct (Forall2_in_r _ _ _ _ Hr Hj') as (j & _ & Hrel).
    rewrite (wake_step_rel_done _ _ _ Hrel) in Hn. discriminate.
Qed.

(** ** Arguments of [antfarm workflow run] *)

Lemma index_of_not_in (x : string) (l : list string) : ~ In x l -> index_of x l = None.
Proof.
  induction l as [|y t IH]; intros H; cbn; [reflexivity|].
  destruct (y =? x) eqn:E; [apply String.eqb_eq in E; subst; exfalso; apply H; left; reflexivity|].
  rewrite IH; [reflexivity|]. intros Hx; apply H; right; exact Hx.
Qed.

Lemma index_of_app (x : string) (pre post : list string) :
  ~ In x pre -> index_of x (pre ++ x :: post) = Some (List.length pre).
Proof.
  induction pre as [|y t IH]; intros H; cbn; [rewrite String.eqb_refl; reflexivity|].
  destruct (y =? x) eqn:E; [apply String.eqb_eq in E; subst; exfalso; apply H; left; reflexivity|].
  rewrite IH; [reflexivity|]. intros Hx; apply H; right; exact Hx.
Qed.

Lemma splice_one_first (a : string) (l : list string) :
  match index_of a l with Some i => (true, js_splice l i 1) | None => (false, l) end
  = (existsb (String.eqb a) l, remove_first a l).
Proof.
  induction l as [|y t IH]; cbn; [reflexivity|].
  rewrite (String.eqb_sym a y). destruct (y =? a) eqn:E; [reflexivity|].
  cbn. destruct (index_of a t) as [i|]; cbn in *; injection IH as <- <-; reflexivity.
Qed.

Lemma splice_two_at (x u : string) (pre post : list string) :
  js_splice (pre ++ x :: u :: post) (List.length pre) 2 = (pre ++ post)%list.
Proof.
  unfold js_splice. induction pre as [|y t IH]; cbn; [reflexivity|]. f_equal. exact IH.
Qed.

Lemma splice_two_last (x : string) (pre : list string) :
  js_splice (pre ++ [x]) (List.length pre) 2 = pre.
Proof.
  unfold js_splice. induction pre as [|y t IH]; cbn; [reflexivity|]. f_equal. exact IH.
Qed.

Lemma nth_error_after (x u : string) (pre post : list string) :
  nth_error (pre ++ x :: u :: post) (S (List.length pre)) = Some u.
Proof. induction pre as [|y t IH]; cbn; [reflexivity | exact IH]. Qed.

Lemma nth_error_after_last (x : string) (pre : list string) :
  nth_error (pre ++ [x]) (S (List.length pre)) = None.
Proof. induction pre as [|y t IH]; cbn; [reflexivity | exact IH]. Qed.

(** X9: the run arguments: without [--notify-url] the notify URL is unset;
    otherwise it is the argument right after the first [--notify-url]
    (whatever it is, [--allow-concurrent] included, and unset when there is
    none), both being taken out.  [--allow-concurrent] is then set when it
    is still among the arguments, its first occurrence being taken out, and
    the title is the rest, joined by spaces and trimmed. *)
Theorem parse_run_args_spec (pre post : list string) (u : string) :
  (~ In "--notify-url" pre ->
   parse_run_args pre
   = mkRunArgs None (existsb (String.eqb "--allow-concurrent") pre)
       (js_trim (join_space (remove_first "--allow-concurrent" pre))))
  /\ (~ In "--notify-url" pre ->
      parse_run_args (pre ++ "--notify-url" :: u :: post)
      = mkRunArgs (Some u) (existsb (String.eqb "--allow-concurrent") (pre ++ post))
          (js_trim (join_space (remove_first "--allow-concurrent" (pre ++ post)))))
  /\ (~ In "--notify-url" pre ->
      parse_run_args (pre ++ ["--notify-url"])
      = mkRunArgs None (existsb (String.eqb "--allow-concurrent") pre)
          (js_trim (join_space (remove_first "--allow-concurrent" pre)))).
Proof.
  unfold parse_run_args. split; [|split]; intros H.
  - rewrite (index_of_not_in _ _ H). rewrite splice_one_first. reflexivity.
  - rewrite (index_of_app _ _ _ H), nth_error_after, splice_two_at, splice_one_first. reflexivity.
  - rewrite (index_of_app _ _ _ H), nth_error_after_last, splice_two_last, splice_one_first.
    reflexivity.
Qed.

(** ** Arguments and threshold of [cleanup-stale] *)

Section CleanupArgsProps.
Variable num : Type.
Variable js_Number : string -> num.
Variables num_truthy num_is_finite num_gt0 num_le0 : num -> bool.
Variable num_floor_ms : num -> Z.
(** A finite number that is not [<= 0] is [> 0], hence truthy. *)
Hypothesis Hnum : forall x, num_is_finite x = true -> num_le0 x = false ->
  num_truthy x = true /\ num_gt0 x = true.

Let parse := parse_cleanup_args num js_Number num_truthy num_is_finite num_gt0 num_le0 num_floor_ms.
Let thr_run := getStaleActiveRunThresholdMs num js_Number num_is_finite num_le0 num_floor_ms.

(** X10: [cleanup-stale] without [--minutes] uses the same threshold as
    [runWorkflow] (the environment variable, else 120 minutes); a valid
    [--minutes m] gives [Math.floor(m * 60_000)]; a value after the first
    [--minutes] that is missing, empty, not finite or [<= 0] is the usage
    error; and a workflow id is only taken from the third argument when it
    is not empty and does not start with [--]. *)
Theorem cleanup_args_threshold (args pre post : list string) (raw : string) (env : option string) :
  (~ In "--minutes" args -> exists wid,
     parse args env = CleanupArgs (existsb (String.eqb "--dry-run") args) wid (thr_run env))
  /\ (~ In "--minutes" pre -> raw <> EmptyString -> num_is_finite (js_Number raw) = true ->
      num_le0 (js_Number raw) = false -> exists wid,
      parse (pre ++ "--minutes" :: raw :: post) env
      = CleanupArgs (existsb (String.eqb "--dry-run") (pre ++ "--minutes" :: raw :: post)) wid
          (num_floor_ms (js_Number raw)))
  /\ (~ In "--minutes" pre ->
      raw = EmptyString \/ num_is_finite (js_Number raw) = false \/ num_le0 (js_Number raw) = true ->
      parse (pre ++ "--minutes" :: raw :: post) env = minutes_error)
  /\ (~ In "--minutes" pre -> parse (pre ++ ["--minutes"]) env = minutes_error)
  /\ (forall dry wid thr, parse args env = CleanupArgs dry wid thr ->
      wid = None \/ exists t, nth_error args 2 = Some t /\ wid = Some t
                              /\ t <> EmptyString /\ prefix "--" t = false).
Proof.
  unfold parse, thr_run, parse_cleanup_args, minutes_error.
  split; [|split; [|split; [|split]]].
  - intros H. rewrite (index_of_not_in _ _ H). eexists. reflexivity.
  - intros H Hne Hf Hle. rewrite (index_of_app _ _ _ H), nth_error_after.
    apply String.eqb_neq in Hne. rewrite Hne, Hf, Hle. cbn.
    destruct (Hnum _ Hf Hle) as [Ht Hg]. rewrite Ht, Hf, Hg. cbn.
    eexists. reflexivity.
  - intros H Hbad. rewrite (index_of_app _ _ _ H), nth_error_after.
    destruct Hbad as [->|[Hf|Hle]]; [reflexivity| |].
    + rewrite Hf. cbn. destruct (raw =? EmptyString); reflexivity.
    + rewrite Hle, orb_true_r. destruct (raw =? EmptyString); reflexivity.
  - intros H. rewrite (index_of_app _ _ _ H), nth_error_after_last. reflexivity.
  - intros dry wid thr.
    destruct (match index_of "--minutes" args with
              | Some i => _ | None => inl None end) as [mo|]; [|intros Hs; discriminate Hs].
    intros Hs.
    destruct (nth_error args 2) as [t|] eqn:Et; [|injection Hs as _ <- _; left; reflexivity].
    destruct (t =? EmptyString) eqn:E1; [injection Hs as _ <- _; left; reflexivity|].
    destruct (prefix "--" t) eqn:E2; cbn in Hs; injection Hs as _ <- _; [left; reflexivity|].
    right. exists t. apply String.eqb_neq in E1. auto.
Qed.

End CleanupArgsProps.

(** ** [antfarm probe] *)

Lemma insert_probe_row_in (x y : probe_row) (l : list probe_row) :
  In y (insert_probe_row x l) <-> y = x \/ In y l.
Proof.
  induction l as [|z t IH]; cbn; [firstorder congruence|].
  destruct (probe_row_le x z); cbn; [firstorder congruence|]. rewrite IH. firstorder congruence.
Qed.


Lemma sort_probe_rows_in (y : probe_row) (l : list probe_row) :
  In y (sort_probe_rows l) <-> In y l.
Proof.
  induction l as [|x t IH]; cbn; [tauto|]. rewrite insert_probe_row_in, IH.
  split; intros [H|H]; auto.
Qed.





Lemma probe_rows_in (st a : string) (d : db) (row : probe_row) :
  In row (probe_rows st a d) ->
  exists s r, In s (steps d) /\ In r (runs d) /\ step_agent_id s = a /\ step_status s = st
    /\ run_id r = step_run_id s /\ run_status r = "running"
    /\ row = mkProbeRow (step_run_id s) (step_id s) (run_created_at r) (run_task r) (step_index s).
Proof.
  unfold probe_rows. rewrite sort_probe_rows_in, in_flat_map. intros (s & Hs & Hrow).
  destruct ((step_agent_id s =? a) && (step_status s =? st)) eqn:E; [|destruct Hrow].
  apply andb_prop in E as [E1 E2]. apply String.eqb_eq in E1, E2.
  apply in_map_iff in Hrow as (r & <- & Hr). apply filter_In in Hr as (Hr & F).
  apply andb_prop in F as [F1 F2]. apply String.eqb_eq in F1, F2.
  exists s, r. auto 8.
Qed.



Lemma queue_items_in (pos : nat) (rows : list probe_row) (it : queue_item) :
  In it (queue_items pos rows) ->
  exists row, In row rows /\ qi_run_id it = pr_run_id row /\ qi_step_id it = pr_step_id row
    /\ qi_run_created_at it = pr_run_created_at row
    /\ qi_task_preview it = substring 0 120 (pr_task row).
Proof.
  revert pos. induction rows as [|row t IH]; intros pos; cbn; [tauto|].
  intros [<-|H]; [exists row; cbn; auto 6|].
  destruct (IH _ H) as (row' & Hr & E). exists row'. auto.
Qed.


(** X12: every row of the upcoming queue of [probe] is a [pending] step of
    the agent in a [running] run: its run id, step id and the run's
    creation time, and the first 120 characters of the run's task. *)
Theorem probe_queue_items_sound (a : string) (d : db) (it : queue_item) :
  In it (rep_upcoming_queue (probe_report_of a d)) ->
  exists s r, In s (steps d) /\ In r (runs d) /\ step_agent_id s = a
    /\ step_status s = "pending" /\ run_id r = step_run_id s /\ run_status r = "running"
    /\ qi_run_id it = step_run_id s /\ qi_step_id it = step_id s
    /\ qi_run_created_at it = run_created_at r
    /\ qi_task_preview it = substring 0 120 (run_task r).
Proof.
  unfold probe_report_of; cbn [rep_upcoming_queue]. intros Hit.
  apply queue_items_in in Hit as (row & Hrow & E1 & E2 & E3 & E4).
  assert (Hrow' : In row (probe_rows "pending" a d)).
  { rewrite <- (firstn_skipn 10 (probe_rows "pending" a d)). apply in_or_app. left. exact Hrow. }
  clear Hrow. rename Hrow' into Hrow.
  destruct (probe_rows_in _ _ _ _ Hrow) as (s & r & Hs & Hr & Ha & Hst & Hid & Hrs & ->).
  exists s, r. cbn in E1, E2, E3, E4. auto 12.
Qed.

Lemma str_app_cancel_l (s x y : string) : s ++ x = s ++ y -> x = y.
Proof. induction s as [|c s IH]; cbn; [auto | intros H; injection H as H; auto]. Qed.

Lemma probe_name_driver (w a : string) :
  probe_cron_name (w ++ "/" ++ a) = "antfarm/" ++ w ++ "/driver" <-> a = "driver".
Proof.
  unfold probe_cron_name. split.
  - intros H. apply str_app_cancel_l in H. apply str_app_cancel_l in H.
    cbn in H. injection H as H. exact H.
  - intros ->. reflexivity.
Qed.

(** X13: the scheduler lookup of [probe] asks for a job named exactly
    [antfarm/<agentId>], while the workflow's steps carry agent ids
    [<workflow>/<agent>] and [setupAgentCrons] creates the single job
    [antfarm/<workflow>/driver]: that job is found for an agent id
    [<workflow>/<agent>] only when the agent is called [driver], so when no
    job of before bore the looked-up name and one of the two listings
    works, [probe] reports no scheduler unless the agent is [driver]. *)
Theorem probe_misses_driver_cron (g : gateway) (wf : cron_workflow) (jobs jobs' : list cron_job)
    (a : string) (listed fallback : option (list cron_job))
    (Hs : setupAgentCrons g wf jobs = inl jobs')
    (Hold : forall j, In j jobs -> cj_name j <> probe_cron_name (cw_id wf ++ "/" ++ a))
    (Hlisted : listed = None \/ listed = Some jobs')
    (Hfb : fallback = None \/ fallback = Some jobs')
    (Hone : listed <> None \/ fallback <> None) :
  probe_cron_lookup (cw_id wf ++ "/" ++ a) listed fallback = None <-> a <> "driver".
Proof.
  destruct (setupAgentCrons_ok g wf jobs jobs' Hs) as (id & a0 & rest & _ & _ & ->).
  match type of Hs with context [ (jobs ++ [?x])%list ] => set (drv := x) in * end.
  assert (Hdrv : cj_name drv = "antfarm/" ++ cw_id wf ++ "/driver") by reflexivity.
  clearbody drv.
  assert (Hfind : find (fun j => cj_name j =? probe_cron_name (cw_id wf ++ "/" ++ a))
                       (jobs ++ [drv])%list = None <-> a <> "driver").
  { rewrite find_none_iff. split.
    - intros H Ea. specialize (H drv (in_or_app jobs [drv] drv (or_intror (or_introl eq_refl)))).
      apply String.eqb_neq in H. apply H. rewrite Hdrv. symmetry. apply probe_name_driver. exact Ea.
    - intros Ha j Hj. apply String.eqb_neq. apply in_app_iff in Hj as [Hj|[<-|[]]].
      + exact (Hold j Hj).
      + rewrite Hdrv. intros E. apply Ha. apply (proj1 (probe_name_driver (cw_id wf) a)).
        symmetry. exact E. }
  unfold probe_cron_lookup.
  destruct Hlisted as [->| ->]; destruct Hfb as [->| ->].
  - destruct Hone as [H|H]; contradiction.
  - exact Hfind.
  - destruct (find _ (jobs ++ [drv])%list) eqn:E; [|exact Hfind].
    split; [intros H; discriminate H|]. intros Ha. apply Hfind in Ha. congruence.
  - destruct (find _ (jobs ++ [drv])%list) eqn:E; [|exact Hfind].
    split; [intros H; discriminate H|]. intros Ha. apply Hfind in Ha. congruence.
Qed.

(** ** The run directory *)





Lemma find_stored_records (nt : string) (l : list stored_run) :
  (forall x, In x l -> x <> StoredOther) ->
  find_stored nt l = inl (find (fun r => normalizeTitle (wr_taskTitle r) =? nt) (stored_records l)).
Proof.
  induction l as [|[r|] t IH]; intros H; cbn; [reflexivity| |].
  - destruct (normalizeTitle (wr_taskTitle r) =? nt); [reflexivity|].
    apply IH. intros; apply H; right; assumption.
  - exfalso. apply (H StoredOther); [left|]; reflexivity.
Qed.

Lemma find_stored_error (nt : string) (l : list stored_run) :
  (exists msg, find_stored nt l = inr msg)
  <-> exists pre post, l = (pre ++ StoredOther :: post)%list
      /\ forall x, In x pre -> exists r', x = StoredRun r' /\ normalizeTitle (wr_taskTitle r') <> nt.
Proof.
  induction l as [|[r|] t IH]; cbn.
  - split; [intros (msg & H); discriminate H|].
    intros (pre & post & E & _). destruct pre; discriminate E.
  - destruct (normalizeTitle (wr_taskTitle r) =? nt) eqn:E; split.
    + intros (msg & H); discriminate H.
    + intros (pre & post & El & Hp). destruct pre as [|x pre]; [discriminate El|].
      injection El as <- _. destruct (Hp _ (or_introl eq_refl)) as (r' & Er & Hn).
      injection Er as <-. apply String.eqb_eq in E. contradiction.
    + intros H. apply IH in H as (pre & post & -> & Hp). exists (StoredRun r :: pre), post.
      split; [reflexivity|]. intros x [<-|Hx]; [|exact (Hp x Hx)].
      exists r. split; [reflexivity|]. apply String.eqb_neq. exact E.
    + intros (pre & post & El & Hp). apply IH. destruct pre as [|x pre]; [discriminate El|].
      injection El as <- El. exists pre, post. split; [exact El|]. intros; apply Hp; right; assumption.
  - split; [intros _; exists [], t; split; [reflexivity | intros _ []]|].
    intros _. eexists. reflexivity.
Qed.

Section RunStoreProps.
Variable json_parse : string -> option stored_run.
Variable json_stringify : workflow_run_record -> string.

Let list_runs := listWorkflowRuns json_parse.
Let find_dir := findRunByTaskTitle_dir json_parse.





(** X16: the lookup of [findRunByTaskTitle] on the directory returns the
    first record, in listing order, whose normalized title matches, as
    long as every listed file holds a run record; it throws exactly when a
    listed value that is not a run record comes before any match. *)
Theorem find_dir_spec (dir : run_dir) (taskTitle : string) :
  ((forall x, In x (list_runs dir) -> x <> StoredOther) ->
   find_dir dir taskTitle = inl (findRunByTaskTitle (stored_records (list_runs dir)) taskTitle))
  /\ ((exists msg, find_dir dir taskTitle = inr msg)
      <-> exists pre post, list_runs dir = (pre ++ StoredOther :: post)%list
          /\ forall x, In x pre -> exists r', x = StoredRun r'
                                 /\ normalizeTitle (wr_taskTitle r') <> normalizeTitle taskTitle).
Proof.
  unfold find_dir, findRunByTaskTitle_dir. fold (list_runs dir). split.
  - intros H. rewrite find_stored_records by exact H. reflexivity.
  - apply find_stored_error.
Qed.

End RunStoreProps.

(** ** The context of a new run *)

Lemma obj_get_set (k k' v : string) (o : list (string * string)) :
  obj_get k (obj_set k' v o) = if k' =? k then Some v else obj_get k o.
Proof.
  induction o as [|[k0 v0] t IH]; cbn; [reflexivity|].
  destruct (String.eqb_spec k0 k') as [->|Hne]; cbn.
  - destruct (k' =? k); reflexivity.
  - destruct (String.eqb_spec k0 k) as [->|Hne2]; [|exact IH].
    destruct (String.eqb_spec k' k) as [->|]; [contradiction | reflexivity].
Qed.

Lemma obj_get_none (k : string) (o : list (string * string)) :
  ~ In k (map fst o) -> obj_get k o = None.
Proof.
  induction o as [|[k0 v0] t IH]; cbn; [reflexivity|]. intros H.
  destruct (String.eqb_spec k0 k) as [->|]; [exfalso; apply H; left; reflexivity|].
  apply IH. intros Hk; apply H; right; exact Hk.
Qed.

Lemma obj_get_spread (k : string) (extra : list (string * string)) :
  NoDup (map fst extra) -> forall base,
  obj_get k (obj_spread base extra)
  = match obj_get k extra with Some v => Some v | None => obj_get k base end.
Proof.
  unfold obj_spread. induction extra as [|[k' v'] t IH]; intros Hnd base; cbn; [reflexivity|].
  inversion Hnd as [|? ? Hni Hnd']; subst. rewrite (IH Hnd'), obj_get_set.
  destruct (String.eqb_spec k' k) as [->|]; [|reflexivity].
  rewrite obj_get_none by exact Hni. reflexivity.
Qed.

(** X17: the run a successful [runWorkflow] inserts is [running], has the
    given title as its task and the given notify URL (else the workflow's
    [notifications.url]); its context maps [task] to the title unless the
    workflow's own context sets [task], and every other key as the
    workflow's context does (its keys being unique). *)
Theorem runWorkflow_initial_context (dp : string -> jsnum) (h : rw_host) (wf : workflow)
    (title : string) (nu : option string) (ac : bool) (d d' : db) (id w t st : string)
    (Hnd : NoDup (map fst (wf_context wf)))
    (H : runWorkflow dp h wf title nu ac d = (RwOk id w t st, d')) :
  exists r, In r (runs d') /\ run_id r = h_run_uuid h /\ run_task r = title
    /\ run_status r = "running"
    /\ run_notify_url r = match nu with Some u => Some u | None => wf_notify_url wf end
    /\ obj_get "task" (run_context r)
       = match obj_get "task" (wf_context wf) with Some v => Some v | None => Some title end
    /\ (forall k, k <> "task" -> obj_get k (run_context r) = obj_get k (wf_context wf)).
Proof.
  unfold runWorkflow in H.
  destruct (concurrency_guard dp h wf ac d) as [d1|msg]; [|discriminate H].
  destruct (h_crons_ok h); [|discriminate H].
  injection H as _ _ _ _ <-.
  eexists. split; [unfold insert_run_and_steps; cbn [runs]; apply in_or_app; right; left; reflexivity|].
  cbn [run_id run_task run_status run_notify_url run_context].
  split; [reflexivity|]. split; [reflexivity|]. split; [reflexivity|]. split; [reflexivity|].
  split.
  - rewrite (obj_get_spread _ _ Hnd). reflexivity.
  - intros k Hk. rewrite (obj_get_spread _ _ Hnd). cbn [obj_get].
    destruct (obj_get k (wf_context wf)); [reflexivity|].
    destruct (String.eqb_spec "task" k) as [E|]; [subst; contradiction | reflexivity].
Qed.

(** ** Arguments of [antfarm logs] *)

Lemma decimal_acc_nonneg (s : string) : forall acc, (0 <= acc)%Z -> (0 <= decimal_acc acc s)%Z.
Proof.
  induction s as [|c t IH]; intros acc H; cbn; [exact H|]. apply IH. lia.
Qed.

(** X18: [antfarm logs <arg>] shows the events of the run [<arg>] exactly
    when [<arg>] is present, not empty and not all digits; otherwise it
    shows that many recent events, 50 when there is no argument, when it is
    empty or when its value is 0 (so [logs 0] shows 50); the number of
    events asked for is always positive. *)
Theorem logs_query_spec (a : string) :
  (logs_query_of (Some a) = LogsRun a <-> a <> EmptyString /\ all_digits a = false)
  /\ (all_digits a = true ->
      logs_query_of (Some a) = LogsRecent (if (decimal_acc 0 a =? 0)%Z then 50 else decimal_acc 0 a))
  /\ (forall arg lim, logs_query_of arg = LogsRecent lim -> (0 < lim)%Z)
  /\ (forall arg r, logs_query_of arg = LogsRun r -> arg = Some r).
Proof.
  split; [|split; [|split]].
  - unfold logs_query_of. split.
    + destruct (negb (a =? EmptyString) && negb (all_digits a)) eqn:E.
      * intros _. apply andb_prop in E as [E1 E2]. apply negb_true_iff in E1, E2.
        apply String.eqb_neq in E1. auto.
      * destruct (parse_int_digits (Some a)) as [v|]; [destruct (v =? 0)%Z|];
          intros H; discriminate H.
    + intros [Hne Hd]. apply String.eqb_neq in Hne. rewrite Hne, Hd. reflexivity.
  - intros Hd. unfold logs_query_of, parse_int_digits. rewrite Hd. cbn.
    destruct (a =? EmptyString); cbn; destruct (decimal_acc 0 a =? 0)%Z; reflexivity.
  - intros arg lim. unfold logs_query_of.
    assert (Hp : forall v, parse_int_digits arg = Some v -> (0 <= v)%Z).
    { intros v. unfold parse_int_digits. destruct arg as [s|]; [|discriminate].
      destruct (all_digits s); [|discriminate]. intros H; injection H as <-.
      apply decimal_acc_nonneg. lia. }
    assert (Hr : forall x, match parse_int_digits arg with
                           | Some v => if (v =? 0)%Z then LogsRecent 50 else LogsRecent v
                           | None => LogsRecent 50 end = LogsRecent x -> (0 < x)%Z).
    { intros x. destruct (parse_int_digits arg) as [v|] eqn:Ev.
      - specialize (Hp v eq_refl). destruct (Z.eqb_spec v 0); intros H; injection H as <-; lia.
      - intros H; injection H as <-; lia. }
    destruct arg as [s|]; [|apply Hr].
    destruct (negb (s =? EmptyString) && negb (all_digits s)); [intros H; discriminate H|apply Hr].
  - intros arg r. unfold logs_query_of.
    destruct arg as [s|].
    + destruct (negb (s =? EmptyString) && negb (all_digits s)).
      * intros H; injection H as ->; reflexivity.
      * destruct (parse_int_digits (Some s)) as [v|]; [destruct (v =? 0)%Z|]; intros H; discriminate H.
    + destruct (parse_int_digits None) as [v|]; [destruct (v =? 0)%Z|]; intros H; discriminate H.
Qed.

(** ** The further properties evaluated on concrete inputs *)

Lemma teardown_keeps_other_crons_witness :
  teardownWorkflowCronsIfIdle sample_gateway two_runs_db "wf" [other_job; driver_job]
    = [other_job; driver_job]
  /\ In other_job (teardownWorkflowCronsIfIdle sample_gateway empty_db "wf" [other_job; driver_job]).
Proof.
  destruct (teardown_keeps_other_crons sample_gateway two_runs_db "wf" [other_job; driver_job])
    as (_ & Hbusy & _ & _).
  destruct (teardown_keeps_other_crons sample_gateway empty_db "wf" [other_job; driver_job])
    as (_ & _ & _ & Hkeep).
  split.
  - apply Hbusy. apply Nat.ltb_lt. vm_compute. reflexivity.
  - apply Hkeep.
    + constructor; [intros [H|[]]; discriminate H | constructor; [intros [] | constructor]].
    + left. reflexivity.
    + vm_compute. reflexivity.
Defined.

Lemma teardown_idle_clears_witness :
  ~ In driver_job (teardownWorkflowCronsIfIdle sample_gateway empty_db "wf" [other_job; driver_job]).
Proof.
  intros Hk.
  pose proof (teardown_idle_clears sample_gateway empty_db "wf" [other_job; driver_job]
                eq_refl eq_refl (fun j _ _ => eq_refl) driver_job Hk) as E.
  vm_compute in E. discriminate E.
Defined.

Lemma ensure_crons_effect_witness :
  ensureWorkflowCrons sample_gateway sample_cron_workflow [other_job; driver_job]
    = inl [other_job; driver_job].
Proof.
  apply (proj2 (ensure_crons_effect sample_gateway sample_cron_workflow [other_job]
                  [other_job; driver_job] ltac:(vm_compute; reflexivity)) eq_refl).
Defined.

Lemma ensure_crons_errors_witness :
  ensureWorkflowCrons preflight_gateway sample_cron_workflow [other_job] = inr "cron tool unavailable"
  /\ ensureWorkflowCrons create_failing_gateway sample_cron_workflow [other_job]
     = inr ("Failed to create workflow driver cron for " ++ dquote ++ "wf" ++ dquote
            ++ ": gateway timeout").
Proof.
  split.
  - apply (proj1 (ensure_crons_errors preflight_gateway sample_cron_workflow [other_job]
                    ltac:(vm_compute; reflexivity))). reflexivity.
  - apply (proj2 (proj2 (ensure_crons_errors create_failing_gateway sample_cron_workflow [other_job]
                           ltac:(vm_compute; reflexivity))) eq_refl "gateway timeout" eq_refl).
    intros H. discriminate H.
Defined.

Lemma ensure_crons_list_failure_duplicates_witness :
  ensureWorkflowCrons unlisting_gateway sample_cron_workflow [driver_job]
    = inl [driver_job; driver_job].
Proof.
  destruct (ensure_crons_list_failure_duplicates unlisting_gateway sample_cron_workflow []
              "job-1" "planner" ["developer"] eq_refl eq_refl eq_refl eq_refl)
    as (drv & _ & E1 & E2).
  vm_compute in E1. injection E1 as <-. exact E2.
Defined.

Lemma ensure_then_teardown_witness :
  teardownWorkflowCronsIfIdle sample_gateway empty_db "wf" [other_job; driver_job] = [other_job].
Proof.
  apply (ensure_then_teardown sample_gateway sample_cron_workflow empty_db [other_job]
           [other_job; driver_job] eq_refl).
  - intros j [<-|[]]. reflexivity.
  - intros id Hc j [<-|[]]. injection Hc as <-. intros H. discriminate H.
  - intros id _. reflexivity.
  - reflexivity.
  - vm_compute. reflexivity.
Defined.

Lemma cleanup_stale_cron_teardown_witness :
  ~ In driver_job (snd (cleanup_stale_with_crons iso_date_parse sample_gateway None
                          sample_threshold_ms sample_now_ms false "2025-10-14T12:00:00.000Z"
                          idle_db [other_job; driver_job])).
Proof.
  destruct (cleanup_stale_with_crons iso_date_parse sample_gateway None sample_threshold_ms
              sample_now_ms false "2025-10-14T12:00:00.000Z" idle_db [other_job; driver_job])
    as [[d' l] jobs'] eqn:H.
  cbn [snd]. intros Hk.
  pose proof (cleanup_stale_cron_teardown iso_date_parse sample_gateway None sample_threshold_ms
                sample_now_ms false "2025-10-14T12:00:00.000Z" idle_db d' l
                [other_job; driver_job] jobs' H) as (_ & _ & Hc & _).
  pose proof H as H'. vm_compute in H'. injection H' as Ed El Ej. subst d' l jobs'.
  assert (E := Hc eq_refl eq_refl (fun j _ => eq_refl) _ (or_introl eq_refl)
                  ltac:(vm_compute; reflexivity) driver_job Hk).
  vm_compute in E. discriminate E.
Defined.

Lemma force_wake_mode_now_witness :
  forceWorkflowWakeModeNow "wf" (Some (Some (fst (wake_now_loop (cron_prefix "wf") sample_wake_jobs))))
  = None.
Proof.
  apply (proj2 (force_wake_mode_now "wf" sample_wake_jobs)). vm_compute. reflexivity.
Defined.

Lemma parse_run_args_spec_witness :
  parse_run_args ["fix"; "--notify-url"; "--allow-concurrent"; "bug"]
  = mkRunArgs (Some "--allow-concurrent") false "fix bug".
Proof.
  etransitivity.
  - exact (proj1 (proj2 (parse_run_args_spec ["fix"] ["bug"] "--allow-concurrent"))
             ltac:(intros [H|[]]; discriminate H)).
  - vm_compute. reflexivity.
Defined.

Lemma sample_number_positive (x : jsnum) :
  sample_is_finite x = true -> sample_le0 x = false -> sample_truthy x = true /\ sample_gt0 x = true.
Proof.
  destruct x as [z|]; cbn; [|intros H; discriminate H]. intros _ Hl. apply Z.leb_gt in Hl.
  split; [apply negb_true_iff, Z.eqb_neq; lia | apply Z.gtb_lt; lia].
Qed.

Lemma cleanup_args_threshold_witness :
  parse_cleanup_args jsnum sample_Number sample_truthy sample_is_finite sample_gt0 sample_le0
    sample_floor_ms ["workflow"; "cleanup-stale"; "wf"; "--minutes"; "30"] None
  = CleanupArgs false (Some "wf") 1800000.
Proof.
  destruct (proj1 (proj2 (cleanup_args_threshold jsnum sample_Number sample_truthy sample_is_finite
              sample_gt0 sample_le0 sample_floor_ms sample_number_positive
              [] ["workflow"; "cleanup-stale"; "wf"] [] "30" None))
    ltac:(intros [H|[H|[H|[]]]]; discriminate H) ltac:(intros H; discriminate H) eq_refl eq_refl)
    as (wid & Hw).
  pose proof Hw as Hw'. vm_compute in Hw'. injection Hw' as <-.
  etransitivity; [exact Hw | vm_compute; reflexivity].
Defined.


Lemma probe_queue_items_sound_witness :
  exists s, In s (steps two_runs_db) /\ step_status s = "pending" /\ step_id s = "implement".
Proof.
  destruct (probe_queue_items_sound "wf/implement" two_runs_db
              (mkQueueItem 1 "r-idle" "implement" idle_iso "task"))
    as (s & r & Hs & _ & _ & Hst & _ & _ & _ & Hid & _).
  - vm_compute. left. reflexivity.
  - exists s. split; [exact Hs|]. split; [exact Hst|]. symmetry. exact Hid.
Defined.

Lemma probe_misses_driver_cron_witness :
  probe_cron_lookup ("wf" ++ "/" ++ "planner") (Some [other_job; driver_job]) None = None.
Proof.
  assert (Hone : Some [other_job; driver_job] <> None \/ (None : option (list cron_job)) <> None).
  { left. intros H. discriminate H. }
  apply (proj2 (probe_misses_driver_cron sample_gateway sample_cron_workflow [other_job]
                  [other_job; driver_job] "planner" (Some [other_job; driver_job]) None
                  ltac:(vm_compute; reflexivity)
                  ltac:(intros j [<-|[]] E; discriminate E)
                  (or_intror eq_refl) (or_introl eq_refl) Hone)).
  intros H. discriminate H.
Defined.



Lemma find_dir_spec_witness :
  findRunByTaskTitle_dir sample_parse sample_dir "ship it " = inl (Some rec_a)
  /\ exists msg, findRunByTaskTitle_dir sample_parse null_dir "Ship it" = inr msg.
Proof.
  split.
  - etransitivity.
    + apply (proj1 (find_dir_spec sample_parse sample_dir "ship it ")).
      intros x Hx. vm_compute in Hx. destruct Hx as [<-|[]]. intros H. discriminate H.
    + vm_compute. reflexivity.
  - apply (proj2 (proj2 (find_dir_spec sample_parse null_dir "Ship it"))).
    exists [], [StoredRun rec_a]. split; [vm_compute; reflexivity | intros x []].
Defined.

Lemma runWorkflow_initial_context_witness :
  exists r, In r (runs (snd (runWorkflow iso_date_parse (sample_host true) ctx_workflow "Fix login"
                               None true idle_db)))
    /\ obj_get "task" (run_context r) = Some "from workflow"
    /\ obj_get "repo" (run_context r) = Some "antfarm"
    /\ run_notify_url r = Some "https://hooks.example/wf".
Proof.
  destruct (runWorkflow iso_date_parse (sample_host true) ctx_workflow "Fix login" None true idle_db)
    as [res d'] eqn:H.
  pose proof H as H'. vm_compute in H'. injection H' as Eres _. subst res.
  destruct (runWorkflow_initial_context iso_date_parse (sample_host true) ctx_workflow "Fix login"
              None true idle_db d' _ _ _ _
              ltac:(constructor; [intros [E|[]]; discriminate E | constructor; [intros [] | constructor]])
              H)
    as (r & Hr & _ & _ & _ & Hnu & Htask & Hother).
  exists r. cbn [snd]. split; [exact Hr|]. split; [rewrite Htask; reflexivity|].
  split; [rewrite (Hother "repo" ltac:(intros E; discriminate E)); reflexivity|].
  rewrite Hnu. reflexivity.
Defined.

Lemma logs_query_spec_witness :
  logs_query_of (Some "0") = LogsRecent 50 /\ logs_query_of (Some "r-idle") = LogsRun "r-idle".
Proof.
  split.
  - etransitivity; [exact (proj1 (proj2 (logs_query_spec "0")) eq_refl) | vm_compute; reflexivity].
  - apply (proj1 (logs_query_spec "r-idle")). split; [intros H; discriminate H | reflexivity].
Defined.
